(** * SLM agent: budget manager, control loop, planner fallback,
      response parser and error categorizer

    A shallow embedding of the Python sources

    - [slm_agent_react/utils/budget_manager.py]   (module [Budget])
    - [slm_agent_react/state/verilog_state.py],
      [slm_agent_react/graph/workflow.py],
      [slm_agent_react/config/react_settings.py]  (module [Workflow])
    - [slm_agent_react/agents/base_agent.py],
      [slm_agent_react/agents/planner_agent.py]   (module [Planner])
    - [slm_agent/llm/response_parser.py]          (module [Parser])
    - [slm_agent/testing/lint_runner.py]          (module [Lint])
    - [slm_agent/testing/test_runner.py]          (module [Runner])
    - [slm_agent_react/agents/validator_agent.py],
      [slm_agent_react/agents/tester_agent.py],
      [slm_agent_react/agents/analyzer_agent.py]  (module [Specialists])
    - [slm_agent_react/agents/codegen_agent.py]   (module [CodeGen])
    - [agent.py]                                  (module [Dispatcher])

    Conventions.  Python [int] is [Z].  Free text that the code scans
    (model output, tool diagnostics) is a [list ascii]; the characters are
    taken to be ASCII, on which [str.lower], [str.strip], [\s] and [\w]
    are the functions of module [Py] (a character above 127 is neither
    whitespace nor a word character there).  Fixed labels, reasons and
    the text fields that the workflow only stores are [string].  A [dict]
    read with [.get(key, default)] is a record of optional fields or a
    [gmap]. *)

From Stdlib Require Import ZArith Ascii String List Bool Lia DecimalString.
From stdpp Require Import base option list gmap strings.

Local Open Scope Z_scope.

(** ** Python text primitives *)

Module Py.

Definition text := list ascii.

(** A literal of the source as a [text]. *)
Definition T (s : string) : text := list_ascii_of_string s.

Definition code (c : ascii) : N := N_of_ascii c.

(** [str.isspace] on one ASCII character: TAB..CR, FS..US and the space. *)
Definition is_space (c : ascii) : bool :=
  ((9 <=? code c) && (code c <=? 13) || (28 <=? code c) && (code c <=? 32))%N.

Definition is_upper (c : ascii) : bool := ((65 <=? code c) && (code c <=? 90))%N.
Definition is_lower (c : ascii) : bool := ((97 <=? code c) && (code c <=? 122))%N.
Definition is_digit (c : ascii) : bool := ((48 <=? code c) && (code c <=? 57))%N.

(** The class [\w] of [re]: letters, digits and the underscore. *)
Definition is_word (c : ascii) : bool :=
  is_upper c || is_lower c || is_digit c || (code c =? 95)%N.

Definition lower_char (c : ascii) : ascii :=
  if is_upper c then ascii_of_N (code c + 32) else c.

(** [s.lower()] *)
Definition lower (s : text) : text := map lower_char s.

Fixpoint starts_with (p s : text) : bool :=
  match p, s with
  | [], _ => true
  | a :: p', b :: s' => Ascii.eqb a b && starts_with p' s'
  | _ :: _, [] => false
  end.

(** [p in s] on strings: [p] occurs in [s] as a contiguous block. *)
Fixpoint contains (p s : text) : bool :=
  starts_with p s ||
  match s with
  | [] => false
  | _ :: s' => contains p s'
  end.

(** [any(kw in s for kw in kws)] *)
Definition any_in (kws : list text) (s : text) : bool :=
  existsb (fun kw => contains kw s) kws.

(** [s.find(p)]: the least index at which [p] occurs, [-1] when none. *)
Fixpoint find (p s : text) : Z :=
  if starts_with p s then 0
  else match s with
       | [] => -1
       | _ :: s' => let i := find p s' in if i <? 0 then -1 else i + 1
       end.

(** [s.rfind(p)]: the greatest index at which [p] occurs, [-1] when none. *)
Fixpoint rfind (p s : text) : Z :=
  match s with
  | [] => if starts_with p [] then 0 else -1
  | _ :: s' =>
      let i := rfind p s' in
      if 0 <=? i then i + 1 else if starts_with p s then 0 else -1
  end.

(** A slice bound as Python normalises it: a negative index counts from
    the end, and the result is clamped to [0, len]. *)
Definition clamp (len i : Z) : Z :=
  if i <? 0 then Z.max (i + len) 0 else Z.min i len.

(** [s[i:j]] *)
Definition slice (i j : Z) (s : text) : text :=
  let len := Z.of_nat (length s) in
  let a := clamp len i in
  let b := clamp len j in
  take (Z.to_nat (b - a)) (drop (Z.to_nat a) s).

(** [s.lstrip()], [s.rstrip()], [s.strip()] *)
Fixpoint lstrip (s : text) : text :=
  match s with
  | c :: s' => if is_space c then lstrip s' else s
  | [] => []
  end.

Definition rstrip (s : text) : text := rev (lstrip (rev s)).

Definition strip (s : text) : text := rstrip (lstrip s).

(** [s.count(c)] for a one-character [c]. *)
Definition count (c : ascii) (s : text) : Z :=
  Z.of_nat (length (filter (fun x => x = c) s)).

(** [sep.join(parts)] on stored strings. *)
Fixpoint join (sep : string) (parts : list string) : string :=
  match parts with
  | [] => EmptyString
  | [p] => p
  | p :: rest => String.append p (String.append sep (join sep rest))
  end.

(** [str(n)] for an [int]: decimal digits, with a minus sign when negative. *)
Definition str_int (n : Z) : string := NilEmpty.string_of_int (Z.to_int n).

(** [s.split(sep)] for a one-character separator: the pieces between the
    separators, one more than there are separators. *)
Fixpoint split (sep : ascii) (s : text) : list text :=
  match s with
  | [] => [[]]
  | c :: s' =>
      if Ascii.eqb c sep then [] :: split sep s'
      else match split sep s' with
           | piece :: rest => (c :: piece) :: rest
           | [] => [[c]]
           end
  end.

(** [sep.join(pieces)] on scanned text. *)
Fixpoint join_text (sep : text) (pieces : list text) : text :=
  match pieces with
  | [] => []
  | [p] => p
  | p :: rest => p ++ sep ++ join_text sep rest
  end.

(** [s.startswith(p)] *)
Definition startswith (p s : text) : bool := starts_with p s.

(** Truth value of a string: it is not empty. *)
Definition nonblank (s : text) : bool :=
  match s with
  | [] => false
  | _ :: _ => true
  end.

End Py.

(** ** [state/verilog_state.py] and the agents' result records *)

Module State.

(** A JSON value as the workflow sees it: only strings are ever inspected;
    numbers and compound values are kept by their source text. *)
Inductive jvalue :=
| JNull
| JBool (b : bool)
| JNum (literal : string)
| JStr (s : string)
| JCompound (source : string).

(** [analyze(code)] of the port analyzer, by its result contract. *)
Record PortAnalysis := {
  all_ports_used : bool;
  unused_inputs : list string;
  unused_outputs : list string;
  feedback : string
}.

(** [CodeGenAgent.generate_code] result; [None] is an absent key. *)
Record GenResult := {
  g_code : string;
  g_success : option bool;
  g_method : string
}.

(** [ValidatorAgent.validate] result. *)
Record ValidatorResult := {
  v_valid : option bool;
  v_issues : option (list string);
  v_tier_achieved : option Z;
  v_port_analysis : option PortAnalysis
}.

(** [TesterAgent.test] result; [t_errors = Some None] is the key bound to
    Python's [None]. *)
Record TesterResult := {
  t_passed : option bool;
  t_errors : option (option string);
  t_tier_achieved : option Z
}.

(** [AnalyzerAgent.analyze] result; both keys are read with [result[...]]. *)
Record AnalyzerResult := {
  a_category : string;
  a_suggestions : list string
}.

(** [VerilogState].  The two [Dict[str, Any]] scratch fields
    ([validation_cache], [quality_metrics]) are never read or written by the
    code modelled here and are left out.  Clock readings are whole
    seconds. *)
Record VerilogState := {
  (* Task information *)
  task_description : string;
  context_files : gmap string string;
  target_file : string;
  (* Code evolution *)
  current_code : option string;
  code_history : list string;
  best_code : option string;
  (* Validation results *)
  structure_valid : bool;
  port_analysis : option PortAnalysis;
  test_results : option TesterResult;
  (* Error tracking *)
  current_errors : option string;
  error_category : option string;
  error_history : list (string * list string);
  consecutive_failures : Z;
  (* Agent coordination *)
  agent_scratchpad : list string;
  last_agent : string;
  next_action : jvalue;
  planner_reasoning : list jvalue;
  (* Budget tracking *)
  agent_invocations : Z;
  max_invocations : Z;
  code_refinements : Z;
  planner_calls : Z;
  specialist_calls : Z;
  (* Quality tracking *)
  current_tier : Z;
  target_tier : Z;
  tier_achievements : gmap Z bool;
  (* Status *)
  iteration : Z;
  success : bool;
  completed : bool;
  timeout : bool;
  budget_exhausted : bool;
  (* Metadata *)
  start_time : Z;
  execution_time : Z;
  final_message : string
}.

(** [create_initial_state]; [now] is the reading of [time.time()]. *)
Definition create_initial_state
    (task : string) (context : gmap string string) (target : string)
    (max_inv : Z) (now : Z) : VerilogState :=
  {| task_description := task;
     context_files := context;
     target_file := target;
     current_code := None;
     code_history := [];
     best_code := None;
     structure_valid := false;
     port_analysis := None;
     test_results := None;
     current_errors := None;
     error_category := None;
     error_history := [];
     consecutive_failures := 0;
     agent_scratchpad := [];
     last_agent := "";
     next_action := JStr "planner";
     planner_reasoning := [];
     agent_invocations := 0;
     max_invocations := max_inv;
     code_refinements := 0;
     planner_calls := 0;
     specialist_calls := 0;
     current_tier := 0;
     target_tier := 3;
     tier_achievements := {[ 1 := false; 2 := false; 3 := false; 4 := false ]};
     iteration := 0;
     success := false;
     completed := false;
     timeout := false;
     budget_exhausted := false;
     start_time := now;
     execution_time := 0;
     final_message := "" |}.

End State.

(** ** [utils/budget_manager.py] *)

Module Budget.
Import State.

(** [BudgetManager]; [phase_allocations] serves [can_invoke] only. *)
Record BudgetManager := { total_budget : Z }.

Definition get_budget_zone (self : BudgetManager) (used : Z) : string :=
  let remaining := total_budget self - used in
  if remaining >=? 40 then "GREEN"
  else if remaining >=? 20 then "YELLOW"
  else if remaining >=? 10 then "ORANGE"
  else "RED".

Definition get_strategy_recommendation
    (self : BudgetManager) (used current_tier : Z) : string :=
  let zone := get_budget_zone self used in
  if String.eqb zone "GREEN" then "explore_alternatives"
  else if String.eqb zone "YELLOW" then
    (if current_tier >=? 2 then "focus_on_testing" else "focus_on_quality")
  else if String.eqb zone "ORANGE" then
    (if current_tier >=? 3 then "optimize" else "finish_strong")
  else "wrap_up".

(** [d.get(k, False)] on the dictionary of tier flags. *)
Definition get_flag (d : gmap Z bool) (k : Z) : bool := default false (d !! k).

Definition should_stop (self : BudgetManager) (state : VerilogState) : bool * string :=
  if agent_invocations state >=? total_budget self then
    (true, "Budget exhausted"%string)
  else if success state && get_flag (tier_achievements state) 3 then
    (true, "Success achieved (Tier 3)"%string)
  else if consecutive_failures state >=? 5 then
    (true, "Too many consecutive failures"%string)
  else if completed state then
    (true, "Task completed"%string)
  else (false, "Continue"%string).

(** [self.phase_allocations], as [__init__] sets it: the soft limits. *)
Definition phase_allocations : gmap string Z :=
  {[ "planner"%string := 15; "code_gen"%string := 15; "validator"%string := 8;
     "tester"%string := 8; "analyzer"%string := 4 ]}.

Definition can_invoke (self : BudgetManager) (used : Z) (agent_type : string)
    (phase_used : gmap string Z) : bool * string :=
  if used >=? total_budget self then
    (false,
     String.append "Budget exhausted ("
       (String.append (Py.str_int used)
          (String.append "/" (String.append (Py.str_int (total_budget self)) ")"))))
  else
    let agent_used := default 0 (phase_used !! agent_type) in
    let agent_limit := default 10 (phase_allocations !! agent_type) in
    if agent_used >=? agent_limit then
      let remaining_global := total_budget self - used in
      if remaining_global >? 5 then
        (true,
         String.append "Using global budget (remaining: "
           (String.append (Py.str_int remaining_global) ")"))
      else
        (false,
         String.append "Agent "
           (String.append agent_type " at limit and low global budget"))
    else
      (true,
       String.append "Within budget ("
         (String.append (Py.str_int used)
            (String.append "/" (String.append (Py.str_int (total_budget self)) ")")))).

End Budget.

(** ** [config/react_settings.py] *)

Module Config.

Record ReActConfig := {
  max_agent_invocations : Z;
  max_code_refinements : Z;
  max_consecutive_failures : Z;
  max_time_seconds : Z;
  tier1_compile : Z;
  tier2_complete : Z;
  tier3_tested : Z;
  tier4_optimal : Z;
  exit_on_tier3 : bool;
  exit_on_first_success : bool;
  allow_partial_success : bool
}.

(** The dataclass defaults. *)
Definition default_config : ReActConfig :=
  {| max_agent_invocations := 50;
     max_code_refinements := 10;
     max_consecutive_failures := 5;
     max_time_seconds := 900;
     tier1_compile := 10;
     tier2_complete := 25;
     tier3_tested := 40;
     tier4_optimal := 50;
     exit_on_tier3 := true;
     exit_on_first_success := false;
     allow_partial_success := true |}.

(** [validate]: the three assertions, as one test. *)
Definition validate (self : ReActConfig) : bool :=
  (0 <? max_agent_invocations self) &&
  (0 <? max_code_refinements self) &&
  ((tier1_compile self <? tier2_complete self) &&
   (tier2_complete self <? tier3_tested self) &&
   (tier3_tested self <=? tier4_optimal self)).

End Config.

(** ** [graph/workflow.py] *)

Module Workflow.
Import State Budget Config.

(** The agents handed to [create_workflow].  An agent is an external
    collaborator (a model call, a tool run): here it is any function of the
    state it is called on.  Every node raises [agent_invocations], so no two
    calls of a session see the same state and any sequence of answers is
    such a function. *)
Record Agents := {
  decide_next_action : VerilogState -> gmap string jvalue;
  generate_code : VerilogState -> GenResult;
  validate : VerilogState -> ValidatorResult;
  test : VerilogState -> TesterResult;
  analyze : VerilogState -> AnalyzerResult
}.

(** Truth value of [result.get(key)] for a flag. *)
Definition truthy (b : option bool) : bool := default false b.

(** [not s] for an optional string: [None] and the empty string. *)
Definition is_empty (s : option string) : bool :=
  match s with
  | None => true
  | Some x => String.eqb x ""
  end.

(** [len(s)] once [s] is known to be a string. *)
Definition len (s : option string) : Z :=
  match s with
  | None => 0
  | Some x => Z.of_nat (String.length x)
  end.

Definition planner_node (agents : Agents) (state : VerilogState) : VerilogState :=
  let budget_mgr := {| total_budget := max_invocations state |} in
  let '(stop, reason) := should_stop budget_mgr state in
  if stop then
    {| task_description := task_description state;
       context_files := context_files state;
       target_file := target_file state;
       current_code := current_code state;
       code_history := code_history state;
       best_code := best_code state;
       structure_valid := structure_valid state;
       port_analysis := port_analysis state;
       test_results := test_results state;
       current_errors := current_errors state;
       error_category := error_category state;
       error_history := error_history state;
       consecutive_failures := consecutive_failures state;
       agent_scratchpad := agent_scratchpad state;
       last_agent := last_agent state;
       next_action := JStr "complete";
       planner_reasoning := planner_reasoning state;
       agent_invocations := agent_invocations state;
       max_invocations := max_invocations state;
       code_refinements := code_refinements state;
       planner_calls := planner_calls state;
       specialist_calls := specialist_calls state;
       current_tier := current_tier state;
       target_tier := target_tier state;
       tier_achievements := tier_achievements state;
       iteration := iteration state;
       success := success state;
       completed := true;
       timeout := timeout state;
       budget_exhausted := budget_exhausted state;
       start_time := start_time state;
       execution_time := execution_time state;
       final_message := final_message state |}
  else
    let decision := decide_next_action agents state in
    {| task_description := task_description state;
       context_files := context_files state;
       target_file := target_file state;
       current_code := current_code state;
       code_history := code_history state;
       best_code := best_code state;
       structure_valid := structure_valid state;
       port_analysis := port_analysis state;
       test_results := test_results state;
       current_errors := current_errors state;
       error_category := error_category state;
       error_history := error_history state;
       consecutive_failures := consecutive_failures state;
       agent_scratchpad := agent_scratchpad state;
       last_agent := "planner";
       next_action := default (JStr "complete") (decision !! "next_action"%string);
       planner_reasoning := planner_reasoning state ++ [default (JStr "") (decision !! "reasoning"%string)];
       agent_invocations := agent_invocations state + 1;
       max_invocations := max_invocations state;
       code_refinements := code_refinements state;
       planner_calls := planner_calls state + 1;
       specialist_calls := specialist_calls state;
       current_tier := current_tier state;
       target_tier := target_tier state;
       tier_achievements := tier_achievements state;
       iteration := iteration state;
       success := success state;
       completed := completed state;
       timeout := timeout state;
       budget_exhausted := budget_exhausted state;
       start_time := start_time state;
       execution_time := execution_time state;
       final_message := final_message state |}.

Definition code_gen_node (agents : Agents) (state : VerilogState) : VerilogState :=
  let result := generate_code agents state in
  let ok := truthy (g_success result) in
  {| task_description := task_description state;
     context_files := context_files state;
     target_file := target_file state;
     current_code := if ok then Some (g_code result) else current_code state;
     code_history := if ok then code_history state ++ [g_code result] else code_history state;
     best_code := if ok && (is_empty (best_code state) ||
                   (len (best_code state) <? len (Some (g_code result))))
       then Some (g_code result) else best_code state;
     structure_valid := structure_valid state;
     port_analysis := port_analysis state;
     test_results := test_results state;
     current_errors := current_errors state;
     error_category := error_category state;
     error_history := error_history state;
     consecutive_failures := if ok then 0 else consecutive_failures state + 1;
     agent_scratchpad := agent_scratchpad state;
     last_agent := "code_gen";
     next_action := next_action state;
     planner_reasoning := planner_reasoning state;
     agent_invocations := agent_invocations state + 1;
     max_invocations := max_invocations state;
     code_refinements := if ok then code_refinements state + 1 else code_refinements state;
     planner_calls := planner_calls state;
     specialist_calls := specialist_calls state + 1;
     current_tier := current_tier state;
     target_tier := target_tier state;
     tier_achievements := tier_achievements state;
     iteration := iteration state + 1;
     success := success state;
     completed := completed state;
     timeout := timeout state;
     budget_exhausted := budget_exhausted state;
     start_time := start_time state;
     execution_time := execution_time state;
     final_message := final_message state |}.

Definition validator_node (agents : Agents) (state : VerilogState) : VerilogState :=
  let result := validate agents state in
  let tier := default 0 (v_tier_achieved result) in
  let promoted := current_tier state <? tier in
  {| task_description := task_description state;
     context_files := context_files state;
     target_file := target_file state;
     current_code := current_code state;
     code_history := code_history state;
     best_code := best_code state;
     structure_valid := default false (v_valid result);
     port_analysis := v_port_analysis result;
     test_results := test_results state;
     current_errors := if negb (truthy (v_valid result))
       then Some (Py.join (String "010" "") (default [] (v_issues result)))
       else current_errors state;
     error_category := error_category state;
     error_history := error_history state;
     consecutive_failures := consecutive_failures state;
     agent_scratchpad := agent_scratchpad state;
     last_agent := "validator";
     next_action := next_action state;
     planner_reasoning := planner_reasoning state;
     agent_invocations := agent_invocations state + 1;
     max_invocations := max_invocations state;
     code_refinements := code_refinements state;
     planner_calls := planner_calls state;
     specialist_calls := specialist_calls state + 1;
     current_tier := if promoted then tier else current_tier state;
     target_tier := target_tier state;
     tier_achievements := if promoted then <[tier := true]> (tier_achievements state)
       else tier_achievements state;
     iteration := iteration state;
     success := success state;
     completed := completed state;
     timeout := timeout state;
     budget_exhausted := budget_exhausted state;
     start_time := start_time state;
     execution_time := execution_time state;
     final_message := final_message state |}.

Definition tester_node (config : ReActConfig) (agents : Agents)
    (state : VerilogState) : VerilogState :=
  let result := test agents state in
  let passed := truthy (t_passed result) in
  let tier := default 0 (t_tier_achieved result) in
  let promoted := current_tier state <? tier in
  {| task_description := task_description state;
     context_files := context_files state;
     target_file := target_file state;
     current_code := current_code state;
     code_history := code_history state;
     best_code := best_code state;
     structure_valid := structure_valid state;
     port_analysis := port_analysis state;
     test_results := Some result;
     current_errors := if passed then current_errors state
       else default (Some ""%string) (t_errors result);
     error_category := error_category state;
     error_history := error_history state;
     consecutive_failures := if passed then consecutive_failures state
       else consecutive_failures state + 1;
     agent_scratchpad := agent_scratchpad state;
     last_agent := "tester";
     next_action := next_action state;
     planner_reasoning := planner_reasoning state;
     agent_invocations := agent_invocations state + 1;
     max_invocations := max_invocations state;
     code_refinements := code_refinements state;
     planner_calls := planner_calls state;
     specialist_calls := specialist_calls state + 1;
     current_tier := if promoted then tier else current_tier state;
     target_tier := target_tier state;
     tier_achievements := if promoted then <[tier := true]> (tier_achievements state)
       else tier_achievements state;
     iteration := iteration state;
     success := if passed then true else success state;
     completed := if passed && (exit_on_tier3 config && (tier >=? 3)) then true
       else completed state;
     timeout := timeout state;
     budget_exhausted := budget_exhausted state;
     start_time := start_time state;
     execution_time := execution_time state;
     final_message := final_message state |}.

Definition analyzer_node (agents : Agents) (state : VerilogState) : VerilogState :=
  let result := analyze agents state in
  {| task_description := task_description state;
     context_files := context_files state;
     target_file := target_file state;
     current_code := current_code state;
     code_history := code_history state;
     best_code := best_code state;
     structure_valid := structure_valid state;
     port_analysis := port_analysis state;
     test_results := test_results state;
     current_errors := current_errors state;
     error_category := Some (a_category result);
     error_history := error_history state ++ [(a_category result, a_suggestions result)];
     consecutive_failures := consecutive_failures state;
     agent_scratchpad := agent_scratchpad state;
     last_agent := "analyzer";
     next_action := next_action state;
     planner_reasoning := planner_reasoning state;
     agent_invocations := agent_invocations state + 1;
     max_invocations := max_invocations state;
     code_refinements := code_refinements state;
     planner_calls := planner_calls state;
     specialist_calls := specialist_calls state + 1;
     current_tier := current_tier state;
     target_tier := target_tier state;
     tier_achievements := tier_achievements state;
     iteration := iteration state;
     success := success state;
     completed := completed state;
     timeout := timeout state;
     budget_exhausted := budget_exhausted state;
     start_time := start_time state;
     execution_time := execution_time state;
     final_message := final_message state |}.

(** The nodes of the graph; [END] is LangGraph's terminal node. *)
Inductive Node := planner | code_gen | validator | tester | analyzer | END.

Definition is_action (label : string) (v : jvalue) : bool :=
  match v with
  | JStr s => String.eqb s label
  | _ => false
  end.

Definition route_from_planner (state : VerilogState) : Node :=
  let next := next_action state in
  if completed state || is_action "complete" next then END
  else if agent_invocations state >=? max_invocations state then END
  else if is_action "code_gen" next then code_gen
  else if is_action "validator" next then validator
  else if is_action "tester" next then tester
  else if is_action "analyzer" next then analyzer
  else END.

(** One super-step of the compiled graph: run the node, follow its edge. *)
Definition step (config : ReActConfig) (agents : Agents)
    (at_ : Node * VerilogState) : Node * VerilogState :=
  let '(node, state) := at_ in
  match node with
  | planner => let s := planner_node agents state in (route_from_planner s, s)
  | code_gen => (planner, code_gen_node agents state)
  | validator => (planner, validator_node agents state)
  | tester => (planner, tester_node config agents state)
  | analyzer => (planner, analyzer_node agents state)
  | END => (END, state)
  end.

(** [n] super-steps from a configuration. *)
Fixpoint steps (config : ReActConfig) (agents : Agents) (n : nat)
    (at_ : Node * VerilogState) : Node * VerilogState :=
  match n with
  | O => at_
  | S n' => steps config agents n' (step config agents at_)
  end.

End Workflow.

(** ** [agents/base_agent.py] and [agents/planner_agent.py] *)

Module Planner.
Import Py State.

(** What [self.executor.invoke(prompt_inputs)] does: it raises, [e] being
    the text of the exception, or returns a dict whose ["output"] entry, if
    any, is the model's text. *)
Inductive invocation :=
| Raised (e : string)
| Returned (output : option text).

(** What [json.loads] does with a text that opens with a brace, as
    [parse_json_output] calls it: it returns the decoded object, raises
    [json.JSONDecodeError], or raises another exception, [e] being its text
    ([RecursionError] on deep nesting, [ValueError] on an integer literal
    beyond the interpreter's digit limit). *)
Inductive decoding :=
| Object (d : gmap string jvalue)
| JSONDecodeError
| OtherError (e : string).

(** What a call of [parse_json_output] does: it returns a dict or [None],
    or lets an exception of text [e] through; its [except] clause takes
    [json.JSONDecodeError] only. *)
Inductive parsing :=
| Escapes (e : string)
| Parsed (d : option (gmap string jvalue)).

Section Agent.

Variable json_loads : text -> decoding.

(** [BaseReActAgent.parse_json_output] *)
Definition parse_json_output (output : text) : parsing :=
  if contains (T "{") output && contains (T "}") output then
    let start := find (T "{") output in
    let end_ := rfind (T "}") output + 1 in
    match json_loads (slice start end_ output) with
    | Object d => Parsed (Some d)
    | JSONDecodeError => Parsed None
    | OtherError e => Escapes e
    end
  else Parsed None.

(** Truth value of a dict: it has an entry. *)
Definition nonempty (d : gmap string jvalue) : bool := negb (Nat.eqb (size d) 0).

(** [key in d] *)
Definition has_key (key : string) (d : gmap string jvalue) : bool :=
  match d !! key with
  | Some _ => true
  | None => false
  end.

Definition default_decision : gmap string jvalue :=
  {[ "next_action"%string := JStr "code_gen";
     "reasoning"%string := JStr "Default action due to parsing error" ]}.

Definition error_decision (e : string) : gmap string jvalue :=
  {[ "next_action"%string := JStr "complete";
     "reasoning"%string := JStr (String.append "Error occurred: " e) ]}.

(** [PlannerAgent.decide_next_action], from the executor's outcome on.
    The call of [parse_json_output] is inside the [try], so what escapes
    from it ends in the [except Exception] branch like a failure of the
    executor. *)
Definition decide_next_action (outcome : invocation) : gmap string jvalue :=
  match outcome with
  | Raised e => error_decision e
  | Returned out =>
      let output := default [] out in
      match parse_json_output output with
      | Escapes e => error_decision e
      | Parsed (Some decision) =>
          if nonempty decision && has_key "next_action" decision
          then decision
          else default_decision
      | Parsed None => default_decision
      end
  end.

(** The planner as the workflow calls it; [executor] formats the state and
    runs the policy. *)
Definition planner_agent (executor : VerilogState -> invocation)
    (state : VerilogState) : gmap string jvalue :=
  decide_next_action (executor state).

End Agent.

End Planner.

(** ** [llm/response_parser.py] *)

Module Parser.
Import Py.

(** The fragment of [re] that the three patterns use, compiled with
    [re.DOTALL | re.IGNORECASE]; repetition is only ever over a
    one-character class. *)
Inductive regex :=
| Empty
| Lit (c : ascii)
| Class (p : ascii -> bool)
| Seq (r1 r2 : regex)
| Alt (r1 r2 : regex)
| Star (p : ascii -> bool)
| LazyStar (p : ascii -> bool).

Section Matcher.
Context {A : Type}.

(** [p*]: as many as possible first, giving back one at a time. *)
Fixpoint greedy (p : ascii -> bool) (s : text) (k : text -> option A) : option A :=
  match s with
  | c :: s' =>
      if p c then
        match greedy p s' k with
        | Some a => Some a
        | None => k s
        end
      else k s
  | [] => k s
  end.

(** [p*?]: as few as possible first, taking one more at a time. *)
Fixpoint lazy (p : ascii -> bool) (s : text) (k : text -> option A) : option A :=
  match k s with
  | Some a => Some a
  | None =>
      match s with
      | c :: s' => if p c then lazy p s' k else None
      | [] => None
      end
  end.

(** Backtracking match of [r] at the head of [s]; [k] is the rest of the
    pattern, run on what [r] leaves. *)
Fixpoint run (r : regex) (s : text) (k : text -> option A) : option A :=
  match r with
  | Empty => k s
  | Lit c =>
      match s with
      | x :: s' => if Ascii.eqb (lower_char x) (lower_char c) then k s' else None
      | [] => None
      end
  | Class p =>
      match s with
      | x :: s' => if p x then k s' else None
      | [] => None
      end
  | Seq r1 r2 => run r1 s (fun s' => run r2 s' k)
  | Alt r1 r2 =>
      match run r1 s k with
      | Some a => Some a
      | None => run r2 s k
      end
  | Star p => greedy p s k
  | LazyStar p => lazy p s k
  end.

End Matcher.

(** A run of literal characters. *)
Definition literal (w : string) : regex :=
  fold_right (fun c r => Seq (Lit c) r) Empty (list_ascii_of_string w).

(** [p+] *)
Definition plus (p : ascii -> bool) : regex := Seq (Class p) (Star p).

(** [.] under [re.DOTALL] *)
Definition dot : ascii -> bool := fun _ => true.

Definition newline : ascii := "010"%char.

(** A pattern with one capture group, cut around it. *)
Record pattern := {
  before : regex;
  group1 : regex;
  after : regex
}.

(** [```(?:verilog|systemverilog|sv)\s*\n(.*?)\n```] *)
Definition fence_tagged : pattern :=
  {| before :=
       Seq (literal "```")
         (Seq (Alt (literal "verilog") (Alt (literal "systemverilog") (literal "sv")))
            (Seq (Star is_space) (Lit newline)));
     group1 := LazyStar dot;
     after := Seq (Lit newline) (literal "```") |}.

(** [```\s*\n(.*?)\n```] *)
Definition fence_plain : pattern :=
  {| before := Seq (literal "```") (Seq (Star is_space) (Lit newline));
     group1 := LazyStar dot;
     after := Seq (Lit newline) (literal "```") |}.

Definition markdown_patterns : list pattern := [fence_tagged; fence_plain].

(** [(module\s+\w+.*?endmodule)] *)
Definition module_block : pattern :=
  {| before := Empty;
     group1 :=
       Seq (literal "module")
         (Seq (plus is_space) (Seq (plus is_word) (Seq (LazyStar dot) (literal "endmodule"))));
     after := Empty |}.

(** [module\s+(\w+)] *)
Definition module_header : pattern :=
  {| before := Seq (literal "module") (plus is_space);
     group1 := plus is_word;
     after := Empty |}.

(** The pattern matched at the head of [s]: the text of group 1. *)
Definition match_at (pat : pattern) (s : text) : option text :=
  run (before pat) s (fun s1 =>
  run (group1 pat) s1 (fun s2 =>
  run (after pat) s2 (fun _ =>
    Some (take (length s1 - length s2)%nat s1)))).

(** [re.search(pat, s).group(1)]: the match at the least start position. *)
Fixpoint search (pat : pattern) (s : text) : option text :=
  match match_at pat s with
  | Some g => Some g
  | None =>
      match s with
      | [] => None
      | _ :: s' => search pat s'
      end
  end.

(** The [for pattern in markdown_patterns] loop: the first pattern found. *)
Fixpoint first_match (pats : list pattern) (s : text) : option text :=
  match pats with
  | [] => None
  | pat :: rest =>
      match search pat s with
      | Some g => Some g
      | None => first_match rest s
      end
  end.

Definition extract_verilog (response : text) : text :=
  match response with
  | [] => []
  | _ =>
      match first_match markdown_patterns response with
      | Some code => strip code
      | None =>
          if contains (T "module ") (lower response) then
            match search module_block response with
            | Some code => strip code
            | None => strip response
            end
          else strip response
      end
  end.

Definition extract_module_name (code : text) : option text :=
  search module_header code.

Definition validate_basic_structure (code : text) : bool :=
  match code with
  | [] => false
  | _ =>
      if negb (contains (T "module") (lower code)) then false
      else if negb (contains (T "endmodule") (lower code)) then false
      else if negb (count "(" code =? count ")" code) then false
      else true
  end.

End Parser.

(** ** [testing/lint_runner.py] *)

Module Lint.
Import Py.

(** What [subprocess.run] does with a tool's command line: the tool is not
    installed ([FileNotFoundError]), it runs past the timeout
    ([subprocess.TimeoutExpired]), another exception of text [e] is raised,
    or it completes with an exit code and its two output streams. *)
Inductive process :=
| NotFound
| TimedOut
| Raised (e : text)
| Completed (returncode : Z) (stdout stderr : text).

(** A tool, by what running it on a list of files gives. *)
Definition tool := list string -> process.

Record LintRunner := { timeout : Z }.

Definition newline : ascii := "010"%char.

(** ["\n".join(output.split("\n")[:n])] *)
Definition first_lines (n : nat) (output : text) : text :=
  join_text [newline] (take n (split newline output)).

Definition timeout_message (self : LintRunner) : text :=
  T "Lint timeout after " ++ T (str_int (timeout self)) ++ T "s".

Definition _run_verilator (self : LintRunner) (verilator : tool)
    (rtl_files : list string) : bool * text :=
  match verilator rtl_files with
  | Completed returncode stdout stderr =>
      let output := stderr ++ stdout in
      if returncode =? 0 then (true, [])
      else (false, first_lines 50 output)
  | NotFound => (false, [])
  | TimedOut => (false, timeout_message self)
  | Raised _ => (false, [])
  end.

Definition _run_icarus (self : LintRunner) (icarus : tool)
    (rtl_files : list string) : bool * text :=
  match icarus rtl_files with
  | Completed returncode stdout stderr =>
      let output := stderr ++ stdout in
      if (returncode =? 0) && negb (contains (T "error") (lower output))
      then (true, [])
      else (false, first_lines 50 output)
  | NotFound => (false, T "No suitable lint tool available (tried Verilator and Icarus)")
  | TimedOut => (false, timeout_message self)
  | Raised e => (false, e)
  end.

Definition run (self : LintRunner) (verilator icarus : tool)
    (rtl_files : list string) : bool * text :=
  match rtl_files with
  | [] => (false, T "No RTL files found")
  | _ :: _ =>
      let '(success, errors) := _run_verilator self verilator rtl_files in
      if success || nonblank errors then (success, errors)
      else _run_icarus self icarus rtl_files
  end.

End Lint.

(** ** [testing/test_runner.py] *)

Module Runner.
Import Py.

Definition categorize_errors (errors : text) : string :=
  let errors_lower := lower errors in
  if any_in [T "syntax error"; T "parse error"; T "unexpected"; T "expected"] errors_lower
  then "syntax"
  else if any_in [T "undeclared"; T "undefined"; T "not declared"] errors_lower
  then "undeclared"
  else if any_in [T "type mismatch"; T "incompatible types"] errors_lower
  then "type"
  else if any_in [T "width"; T "bit width"; T "size mismatch"] errors_lower
  then "width"
  else if contains (T "latch") errors_lower
  then "latch"
  else if any_in [T "timing"; T "setup"; T "hold"] errors_lower
  then "timing"
  else "general".

(** [TestRunner]: its two runners; the CocoTB runner is only known by the
    pair that its [run] returns. *)
Record TestRunner := {
  test_timeout : Z;
  lint_runner : Lint.LintRunner
}.

(** [TestRunner(test_timeout, lint_timeout)] *)
Definition new (test_timeout lint_timeout : Z) : TestRunner :=
  {| test_timeout := test_timeout;
     lint_runner := {| Lint.timeout := lint_timeout |} |}.

(** What the runner finds around it: the answer of [CocotbRunner.run], the
    [*.v] and [*.sv] files of [/code/rtl] ([None] when the directory does
    not exist) and the two lint tools. *)
Record toolchain := {
  cocotb : bool * text;
  rtl_dir : option (list string * list string);
  verilator : Lint.tool;
  icarus : Lint.tool
}.

Definition _find_rtl_files (env : toolchain) : list string :=
  match rtl_dir env with
  | None => []
  | Some (v_files, sv_files) => v_files ++ sv_files
  end.

Definition _run_lint_checks (self : TestRunner) (env : toolchain) : bool * text :=
  let rtl_files := _find_rtl_files env in
  match rtl_files with
  | [] => (false, T "No RTL files found")
  | _ :: _ => Lint.run (lint_runner self) (verilator env) (icarus env) rtl_files
  end.

Definition run (self : TestRunner) (env : toolchain) : bool * text :=
  let '(cocotb_success, cocotb_errors) := cocotb env in
  if nonblank cocotb_errors then (cocotb_success, cocotb_errors)
  else _run_lint_checks self env.

End Runner.

(** ** [agents/validator_agent.py], [agents/tester_agent.py],
       [agents/analyzer_agent.py] *)

Module Specialists.
Import Py State Workflow.

Section Validator.

(** [PortAnalyzer.analyze]; the analyzer itself is not part of these
    sources and is taken as given. *)
Variable port_analyzer : text -> PortAnalysis.

(** [ValidatorAgent.validate] *)
Definition validate (state : VerilogState) : ValidatorResult :=
  if is_empty (current_code state) then
    {| v_valid := Some false;
       v_issues := Some ["No code to validate"%string];
       v_tier_achieved := Some 0;
       v_port_analysis := None |}
  else
    let code := T (default ""%string (current_code state)) in
    let '(tier, issues) :=
      if Parser.validate_basic_structure code
      then (1, [])
      else (0, ["Structure validation failed"%string]) in
    let '(tier, issues, port_result) :=
      if tier >=? 1 then
        let port_result := port_analyzer code in
        if all_ports_used port_result
        then (2, issues, Some port_result)
        else (tier,
              issues ++ [String.append "Unused ports: " (feedback port_result)],
              Some port_result)
      else (tier, issues, None) in
    {| v_valid := Some (tier >=? 2);
       v_issues := Some issues;
       v_tier_achieved := Some tier;
       v_port_analysis := if tier >=? 1 then port_result else None |}.

End Validator.

Section Tester.

(** The toolchain as it stands once [CodeManager.write_code] has written
    the code to the target file. *)
Variable written : string -> string -> Runner.toolchain.

(** [TesterAgent.test] *)
Definition test (state : VerilogState) : TesterResult :=
  if is_empty (current_code state) then
    {| t_passed := Some false;
       t_errors := Some (Some "No code to test"%string);
       t_tier_achieved := Some 0 |}
  else
    let code := default ""%string (current_code state) in
    let runner := Runner.new 120 30 in
    let '(passed, errors) := Runner.run runner (written (target_file state) code) in
    let tier_achieved := if passed then 3 else 1 in
    {| t_passed := Some passed;
       t_errors := Some (if nonblank errors then Some (string_of_list_ascii errors) else None);
       t_tier_achieved := Some tier_achieved |}.

End Tester.

(** The dict that [AnalyzerAgent.analyze] returns. *)
Record Analysis := {
  category : string;
  suggestions : list string;
  priority : string
}.

Definition suggestions_map : gmap string (list string) :=
  {[ "syntax"%string :=
       ["Check semicolons"; "Verify module/endmodule"; "Check parentheses"]%string;
     "undeclared"%string := ["Add signal declarations"; "Check signal names"]%string;
     "type"%string := ["Verify signal types"; "Add type casting"]%string;
     "width"%string := ["Check bit widths"; "Verify array dimensions"]%string;
     "latch"%string := ["Add default case"; "Complete if/else"]%string;
     "general"%string := ["Review error messages"; "Check Verilog standard"]%string ]}.

(** [x in [a, b]] on labels *)
Definition one_of (labels : list string) (x : string) : bool :=
  existsb (String.eqb x) labels.

(** [AnalyzerAgent.analyze] *)
Definition analyze (state : VerilogState) : Analysis :=
  if is_empty (current_errors state) then
    {| category := "none"; suggestions := []; priority := "low" |}
  else
    let errors := T (default ""%string (current_errors state)) in
    let category := Runner.categorize_errors errors in
    {| category := category;
       suggestions :=
         default ["Review errors carefully"%string] (suggestions_map !! category);
       priority :=
         if one_of ["syntax"; "undeclared"]%string category then "high" else "medium" |}.

(** The part of the analysis that [analyzer_node] reads. *)
Definition analyzer_result (a : Analysis) : AnalyzerResult :=
  {| a_category := category a; a_suggestions := suggestions a |}.

End Specialists.


(** ** [agents/codegen_agent.py] *)

Module CodeGen.
Import Py State Workflow.

(** What [generate_code] returns: the dict decoded from the model's JSON
    as it is, or a dict that the agent builds. *)
Inductive generation :=
| Decoded (d : gmap string jvalue)
| Built (r : GenResult).

(** What a call of [generate_code] does: it returns a dict, or an exception
    of text [e] leaves the function. *)
Inductive call :=
| Propagates (e : string)
| Returns (g : generation).

Section Agent.

Variable json_loads : text -> Planner.decoding.

(** The fallback: the extractor on the raw output. *)
Definition fallback (output : text) : generation :=
  let code := Parser.extract_verilog output in
  if nonblank code then
    Built {| g_code := string_of_list_ascii code;
             g_success := Some true;
             g_method := "fallback_extraction" |}
  else
    Built {| g_code := ""; g_success := Some false; g_method := "failed" |}.

(** The dict of the [except] branch; the text of the exception goes to the
    log and to an ["error"] entry that no caller reads. *)
Definition failure : generation :=
  Built {| g_code := ""; g_success := Some false; g_method := "error" |}.

(** [len(v)] is defined on strings, lists and dicts; on [None], booleans
    and numbers it raises [TypeError]. *)
Definition has_len (v : jvalue) : bool :=
  match v with
  | JStr _ | JCompound _ => true
  | JNull | JBool _ | JNum _ => false
  end.

(** The state summary that [generate_code] logs before its [try]: on a
    refinement (there is code) it reads
    [state.get("port_analysis", {}).get("all_ports_used")]; the state holds
    the key, so the default is not used, and on the value [None] the second
    [get] raises [AttributeError], which nothing catches.  [None] says that
    the summary goes through. *)
Definition log_state_summary (state : VerilogState) : option string :=
  let is_initial := is_empty (current_code state) in
  if negb is_initial then
    match port_analysis state with
    | Some _ => None
    | None => Some "'NoneType' object has no attribute 'get'"%string
    end
  else None.

(** The [try] block of [generate_code], from the executor's outcome on.
    The log line of the success path takes [len(code_result['code'])], so
    a ["code"] entry without a length ends in the [except] branch, and so
    does what escapes from [parse_json_output]. *)
Definition generate (outcome : Planner.invocation) : generation :=
  match outcome with
  | Planner.Raised e => failure
  | Planner.Returned out =>
      let output := default [] out in
      match Planner.parse_json_output json_loads output with
      | Planner.Escapes e => failure
      | Planner.Parsed (Some code_result) =>
          if Planner.nonempty code_result && Planner.has_key "code" code_result
          then match code_result !! "code"%string with
               | Some v => if has_len v then Decoded code_result else failure
               | None => failure
               end
          else fallback output
      | Planner.Parsed None => fallback output
      end
  end.

(** [CodeGenAgent.generate_code]; [executor] is [self.invoke], which runs
    inside the [try]. *)
Definition generate_code (executor : VerilogState -> Planner.invocation)
    (state : VerilogState) : call :=
  match log_state_summary state with
  | Some e => Propagates e
  | None => Returns (generate (executor state))
  end.

End Agent.

End CodeGen.

(** ** [agent.py] *)

Module Dispatcher.
Import Py.

Inductive AgentType := ITERATIVE | REACT | AUTO.

(** [a == b] on strings *)
Fixpoint text_eqb (a b : text) : bool :=
  match a, b with
  | [], [] => true
  | x :: a', y :: b' => Ascii.eqb x y && text_eqb a' b'
  | _, _ => false
  end.

(** [UnifiedAgentDispatcher._select_system]; [env] is the value of the
    variable [AGENT_TYPE], if set. *)
Definition _select_system (env : option text) (agent_type : AgentType) : AgentType :=
  let env_agent := lower (default [] env) in
  if text_eqb env_agent (T "iterative") then ITERATIVE
  else if text_eqb env_agent (T "react") then REACT
  else match agent_type with
       | ITERATIVE | REACT => agent_type
       | AUTO => REACT
       end.

(** What importing and calling a system's [main] does. *)
Inductive launch :=
| Fails
| Exits (code : Z).

Definition _run_iterative (iterative : launch) : Z :=
  match iterative with
  | Exits code => code
  | Fails => 1
  end.

Definition _run_react (react iterative : launch) : Z :=
  match react with
  | Exits code => code
  | Fails => _run_iterative iterative
  end.

(** [UnifiedAgentDispatcher.run] *)
Definition run (env : option text) (agent_type : AgentType)
    (react iterative : launch) : Z :=
  match _select_system env agent_type with
  | ITERATIVE => _run_iterative iterative
  | REACT => _run_react react iterative
  | AUTO => 1
  end.

End Dispatcher.

(** * Vocabulary of the properties *)

Import Py State Budget Config Workflow Parser.

(** [p] occurs in [s]: the meaning of Python's [p in s]. *)
Definition occurs (p s : text) : Prop := exists a b, s = a ++ p ++ b.

(** Some keyword of [kws] occurs in [s]. *)
Definition occurs_any (kws : list text) (s : text) : Prop :=
  exists kw, In kw kws /\ occurs kw s.

(** The closed set of error categories. *)
Definition categories : list string :=
  ["syntax"; "undeclared"; "type"; "width"; "latch"; "timing"; "general"]%string.

(** The text handed to [json.loads]: from the first opening brace to the
    last closing one. *)
Definition brace_span (output : text) : text :=
  slice (find (T "{") output) (rfind (T "}") output + 1) output.

(** A planner output that holds one JSON object, without ["next_action"],
    whose only member is an integer of 4301 digits. *)
Definition oversized_output : text :=
  T "{" ++ ["034"%char] ++ T "reasoning" ++ ["034"%char] ++ T ": " ++
  repeat "1"%char 4301 ++ T "}".

(** The text of the [ValueError] with which [int] refuses a literal of more
    than 4300 digits, the interpreter's default limit. *)
Definition int_limit_message : string :=
  "Exceeds the limit (4300 digits) for integer string conversion: value has 4301 digits; use sys.set_int_max_str_digits() to increase the limit".

(** [json.loads] at [oversized_output]: the decoder hands the integer
    literal to [int], which raises.  The examples decode no other text;
    any other text counts as not decodable here. *)
Definition sample_json_loads (s : text) : Planner.decoding :=
  if bool_decide (s = oversized_output)
  then Planner.OtherError int_limit_message
  else Planner.JSONDecodeError.

(** Success with tier 3 achieved: the second stop condition. *)
Definition succeeded (state : VerilogState) : bool :=
  success state && get_flag (tier_achievements state) 3.

(** A stretch of a session in which generation fails [n] times and neither
    the validator nor the tester runs; planner and analyzer steps may come
    in between. *)
Inductive failing_run (config : ReActConfig) (agents : Agents) :
    nat -> Node * VerilogState -> Node * VerilogState -> Prop :=
| fr_done at_ : failing_run config agents 0 at_ at_
| fr_planner n state at' :
    failing_run config agents n (step config agents (planner, state)) at' ->
    failing_run config agents n (planner, state) at'
| fr_analyzer n state at' :
    failing_run config agents n (step config agents (analyzer, state)) at' ->
    failing_run config agents n (analyzer, state) at'
| fr_code_gen n state at' :
    truthy (g_success (generate_code agents state)) = false ->
    failing_run config agents n (step config agents (code_gen, state)) at' ->
    failing_run config agents (S n) (code_gen, state) at'.

(** Agents with fixed answers, for concrete sessions: the planner always
    asks for [action], generation succeeds or not as [gen_ok] says, the
    validator reports [val_tier], the tester [passed]. *)
Definition fixed_agents (action : string) (gen_ok : bool) (val_tier : Z)
    (passed : bool) : Agents :=
  {| decide_next_action := fun _ =>
       {[ "next_action"%string := JStr action; "reasoning"%string := JStr "fixed" ]};
     generate_code := fun _ =>
       {| g_code := if gen_ok then "module m(); endmodule" else "";
          g_success := Some gen_ok;
          g_method := "fixed" |};
     validate := fun _ =>
       {| v_valid := Some (val_tier >=? 2);
          v_issues := Some [];
          v_tier_achieved := Some val_tier;
          v_port_analysis := None |};
     test := fun _ =>
       {| t_passed := Some passed;
          t_errors := Some (if passed then None else Some "FAILED"%string);
          t_tier_achieved := Some (if passed then 3 else 1) |};
     analyze := fun _ =>
       {| a_category := "general"; a_suggestions := [] |} |}.

(** The nodes that the planner dispatches to. *)
Definition is_specialist (node : Node) : bool :=
  match node with
  | code_gen | validator | tester | analyzer => true
  | planner | END => false
  end.

(** A session in which the planner keeps asking for code and generation
    keeps failing: its start with a cap of 50 and of 10, and the state ten
    super-steps later, each in evaluated form. *)
Definition failing_agents : Agents := fixed_agents "code_gen" false 0 false.

Definition start50 : VerilogState :=
  Eval vm_compute in create_initial_state "2-bit counter" ∅ "/code/rtl/top.sv" 50 0.

Definition start10 : VerilogState :=
  Eval vm_compute in create_initial_state "2-bit counter" ∅ "/code/rtl/top.sv" 10 0.

Definition after50 : VerilogState :=
  Eval vm_compute in snd (steps default_config failing_agents 10 (planner, start50)).

Definition after10 : VerilogState :=
  Eval vm_compute in snd (steps default_config failing_agents 10 (planner, start10)).

(** [state] with other readings in its three clock fields. *)
Definition with_clock (start elapsed : Z) (hit : bool) (state : VerilogState) :
    VerilogState :=
  {| task_description := task_description state;
     context_files := context_files state;
     target_file := target_file state;
     current_code := current_code state;
     code_history := code_history state;
     best_code := best_code state;
     structure_valid := structure_valid state;
     port_analysis := port_analysis state;
     test_results := test_results state;
     current_errors := current_errors state;
     error_category := error_category state;
     error_history := error_history state;
     consecutive_failures := consecutive_failures state;
     agent_scratchpad := agent_scratchpad state;
     last_agent := last_agent state;
     next_action := next_action state;
     planner_reasoning := planner_reasoning state;
     agent_invocations := agent_invocations state;
     max_invocations := max_invocations state;
     code_refinements := code_refinements state;
     planner_calls := planner_calls state;
     specialist_calls := specialist_calls state;
     current_tier := current_tier state;
     target_tier := target_tier state;
     tier_achievements := tier_achievements state;
     iteration := iteration state;
     success := success state;
     completed := completed state;
     timeout := hit;
     budget_exhausted := budget_exhausted state;
     start_time := start;
     execution_time := elapsed;
     final_message := final_message state |}.

(** The least [n] such that [P] holds of the text from index [n] on. *)
Fixpoint first_index (P : text -> bool) (s : text) : option nat :=
  if P s then Some 0%nat
  else match s with
       | [] => None
       | _ :: s' => option_map S (first_index P s')
       end.

(** [module\s+\w] matches at the head of [s]: the keyword in any letter
    case, whitespace, then a word character. *)
Definition header_at (s : text) : bool :=
  starts_with (T "module") (lower s) &&
  match drop 6 s with
  | c :: rest =>
      is_space c &&
      match lstrip rest with
      | d :: _ => is_word d
      | [] => false
      end
  | [] => false
  end.

(** [endmodule], in any letter case, is at the head of [s]. *)
Definition endmodule_at (s : text) : bool := starts_with (T "endmodule") (lower s).

(** The text starts with a character that cannot continue an identifier. *)
Definition word_stops (s : text) : bool :=
  match s with
  | c :: _ => negb (is_word c)
  | [] => false
  end.

(** [literal] on a text: one [Lit] per character. *)
Definition lit_seq (l : text) : regex :=
  fold_right (fun c r => Seq (Lit c) r) Empty l.

(** The text does not go on with a character of class [p]. *)
Definition stops (p : ascii -> bool) (rest : text) : Prop :=
  match rest with
  | c :: _ => p c = false
  | [] => True
  end.

(** What is left of the module pattern once its header is read. *)
Definition module_tail {A} (k : text -> option A) (s : text) : option A :=
  run (Seq (LazyStar dot) (literal "endmodule")) s k.

(** [state] as the planner leaves it when the stop test fires. *)
Definition stopped (state : VerilogState) : VerilogState :=
  {| task_description := task_description state;
     context_files := context_files state;
     target_file := target_file state;
     current_code := current_code state;
     code_history := code_history state;
     best_code := best_code state;
     structure_valid := structure_valid state;
     port_analysis := port_analysis state;
     test_results := test_results state;
     current_errors := current_errors state;
     error_category := error_category state;
     error_history := error_history state;
     consecutive_failures := consecutive_failures state;
     agent_scratchpad := agent_scratchpad state;
     last_agent := last_agent state;
     next_action := JStr "complete";
     planner_reasoning := planner_reasoning state;
     agent_invocations := agent_invocations state;
     max_invocations := max_invocations state;
     code_refinements := code_refinements state;
     planner_calls := planner_calls state;
     specialist_calls := specialist_calls state;
     current_tier := current_tier state;
     target_tier := target_tier state;
     tier_achievements := tier_achievements state;
     iteration := iteration state;
     success := success state;
     completed := true;
     timeout := timeout state;
     budget_exhausted := budget_exhausted state;
     start_time := start_time state;
     execution_time := execution_time state;
     final_message := final_message state |}.

(** [best'] is [best] or a strictly longer text. *)
Definition same_or_longer (best best' : string) : Prop :=
  best' = best \/ len (Some best) < len (Some best').

(** Every invocation is counted once, as a planner or as a specialist call. *)
Definition accounted (state : VerilogState) : Prop :=
  agent_invocations state = planner_calls state + specialist_calls state.

(** The refinement counter is the length of the history and the current
    candidate is the last entry of the history. *)
Definition history_kept (state : VerilogState) : Prop :=
  code_refinements state = Z.of_nat (length (code_history state)) /\
  current_code state = last (code_history state).

(** The best candidate is an entry of the history that no entry exceeds in
    length; there is none exactly when the history is empty. *)
Definition best_is_longest (state : VerilogState) : Prop :=
  match best_code state with
  | None => code_history state = []
  | Some best =>
      In best (code_history state) /\
      forall c, In c (code_history state) -> len (Some c) <= len (Some best)
  end.

(** The flag of the current tier is set, unless no tier is reached yet. *)
Definition tier_flagged (state : VerilogState) : Prop :=
  current_tier state = 0 \/
  tier_achievements state !! current_tier state = Some true.

(** What the budget allows at a node: a specialist only runs with an
    invocation to spare. *)
Definition within_budget (at_ : Node * VerilogState) : Prop :=
  if is_specialist (fst at_)
  then agent_invocations (snd at_) < max_invocations (snd at_)
  else agent_invocations (snd at_) <= max_invocations (snd at_).

(** The label that [route_from_planner] expects for a node. *)
Definition label_of (node : Node) : string :=
  match node with
  | planner => "planner"
  | code_gen => "code_gen"
  | validator => "validator"
  | tester => "tester"
  | analyzer => "analyzer"
  | END => "complete"
  end.

(** The zones in the order in which a session goes through them. *)
Definition zone_rank (zone : string) : Z :=
  if String.eqb zone "GREEN" then 0
  else if String.eqb zone "YELLOW" then 1
  else if String.eqb zone "ORANGE" then 2
  else 3.

(** Agents whose validator and tester are the ones of the sources, over a
    given port analyzer and toolchain. *)
Definition real_specialists (port_analyzer : text -> PortAnalysis)
    (written : string -> string -> Runner.toolchain) (agents : Agents) : Prop :=
  (forall state, validate agents state = Specialists.validate port_analyzer state) /\
  (forall state, test agents state = Specialists.test written state).

(** Agents whose planner is the planner agent of the sources, over a given
    JSON decoder and executor. *)
Definition real_planner (json_loads : text -> Planner.decoding)
    (executor : VerilogState -> Planner.invocation) (agents : Agents) : Prop :=
  forall state,
    decide_next_action agents state = Planner.planner_agent json_loads executor state.

(** The state holds a tier between 0 and 3. *)
Definition tier_in_range (state : VerilogState) : Prop :=
  0 <= current_tier state <= 3.

(** The source's specialists around fixed answers of planner, generator and
    analyzer: a toolchain in which CocoTB reports [cocotb_result], and a
    port analyzer that finds all ports used. *)
Definition sample_toolchain (cocotb_result : bool * text) : Runner.toolchain :=
  {| Runner.cocotb := cocotb_result;
     Runner.rtl_dir := None;
     Runner.verilator := fun _ => Lint.NotFound;
     Runner.icarus := fun _ => Lint.NotFound |}.

Definition sample_port_analyzer (code : text) : PortAnalysis :=
  {| all_ports_used := true; unused_inputs := []; unused_outputs := [];
     feedback := "" |}.

Definition sample_agents (action : string) (cocotb_result : bool * text) : Agents :=
  {| decide_next_action := decide_next_action (fixed_agents action true 0 false);
     generate_code := generate_code (fixed_agents action true 0 false);
     validate := Specialists.validate sample_port_analyzer;
     test := Specialists.test (fun _ _ => sample_toolchain cocotb_result);
     analyze := fun state => Specialists.analyzer_result (Specialists.analyze state) |}.

(** No whitespace at either end. *)
Definition trimmed (s : text) : Prop :=
  stops is_space s /\ stops is_space (rev s).

(** The closing fence, a newline and three backquotes, is at the head of
    [s]. *)
Definition fence_close_at (s : text) : bool :=
  starts_with (Parser.newline :: T "```") (lower s).

(** * Properties *)

(** ** Text primitives *)

Lemma starts_with_app (p b : text) : starts_with p (p ++ b) = true.
Proof.
  induction p as [|c p IH]; simpl; [reflexivity|].
  rewrite Ascii.eqb_refl. exact IH.
Qed.

Lemma starts_with_inv (p s : text) :
  starts_with p s = true -> exists b, s = p ++ b.
Proof.
  revert s. induction p as [|c p IH]; intros s H.
  - exists s. reflexivity.
  - destruct s as [|x s]; simpl in H; [discriminate|].
    apply andb_prop in H as [Hc Hp].
    apply Ascii.eqb_eq in Hc. subst x.
    destruct (IH _ Hp) as [b ->]. exists b. reflexivity.
Qed.

Lemma contains_here (p s : text) : starts_with p s = true -> contains p s = true.
Proof. intros H. destruct s; simpl; rewrite H; reflexivity. Qed.

Lemma contains_occurs (p s : text) : contains p s = true <-> occurs p s.
Proof.
  split.
  - induction s as [|c s IH]; simpl; intros H.
    + rewrite orb_false_r in H. apply starts_with_inv in H as [b Hb].
      exists [], b. exact Hb.
    + apply orb_prop in H as [H|H].
      * apply starts_with_inv in H as [b Hb]. exists [], b. exact Hb.
      * destruct (IH H) as (a & b & ->). exists (c :: a), b. reflexivity.
  - intros (a & b & ->). induction a as [|c a IH]; simpl.
    + apply contains_here, starts_with_app.
    + rewrite IH. apply orb_true_r.
Qed.

Lemma contains_false (p s : text) : contains p s = false <-> ~ occurs p s.
Proof.
  rewrite <- contains_occurs. destruct (contains p s); split; congruence.
Qed.

Lemma any_in_occurs (kws : list text) (s : text) :
  any_in kws s = true <-> occurs_any kws s.
Proof.
  unfold any_in, occurs_any. rewrite existsb_exists.
  split; intros (kw & Hin & H); exists kw; split; auto; apply contains_occurs; exact H.
Qed.

Lemma any_in_false (kws : list text) (s : text) :
  any_in kws s = false <-> ~ occurs_any kws s.
Proof.
  rewrite <- any_in_occurs. destruct (any_in kws s); split; congruence.
Qed.

Lemma lower_app (a b : text) : lower (a ++ b) = lower a ++ lower b.
Proof. apply map_app. Qed.

Lemma occurs_lower (p s : text) : occurs p s -> occurs (lower p) (lower s).
Proof.
  intros (a & b & ->). exists (lower a), (lower b).
  rewrite !lower_app. reflexivity.
Qed.

(** ** Budget manager *)

Lemma get_flag_true (d : gmap Z bool) (k : Z) :
  get_flag d k = true <-> d !! k = Some true.
Proof.
  unfold get_flag. destruct (d !! k) as [[|]|]; simpl; split; congruence.
Qed.

(** C1. [should_stop] tries its conditions in a fixed order and the first
    that holds decides: the budget cap, then success with tier 3 achieved,
    then five consecutive failures, then the completed flag; otherwise the
    loop continues.  The five reasons are pairwise distinct. *)
Theorem should_stop_first_match (self : BudgetManager) (state : VerilogState) :
  let exhausted := agent_invocations state >= total_budget self in
  let succeeded := success state = true /\ tier_achievements state !! 3 = Some true in
  let failing := consecutive_failures state >= 5 in
  let done_ := completed state = true in
  (exhausted -> should_stop self state = (true, "Budget exhausted"%string)) /\
  (~ exhausted -> succeeded ->
     should_stop self state = (true, "Success achieved (Tier 3)"%string)) /\
  (~ exhausted -> ~ succeeded -> failing ->
     should_stop self state = (true, "Too many consecutive failures"%string)) /\
  (~ exhausted -> ~ succeeded -> ~ failing -> done_ ->
     should_stop self state = (true, "Task completed"%string)) /\
  (~ exhausted -> ~ succeeded -> ~ failing -> ~ done_ ->
     should_stop self state = (false, "Continue"%string)) /\
  NoDup ["Budget exhausted"; "Success achieved (Tier 3)";
         "Too many consecutive failures"; "Task completed"; "Continue"]%string.
Proof.
  unfold should_stop. cbv zeta.
  rewrite <- get_flag_true.
  destruct (Z.geb_spec (agent_invocations state) (total_budget self)) as [Hb|Hb];
  destruct (success state) eqn:Hs;
  destruct (get_flag (tier_achievements state) 3) eqn:Ht;
  destruct (Z.geb_spec (consecutive_failures state) 5) as [Hf|Hf];
  destruct (completed state) eqn:Hc; simpl;
  (repeat split; try (intros; first [reflexivity | lia | tauto | intuition congruence]));
  repeat constructor; rewrite ?elem_of_cons, ?elem_of_nil; intuition discriminate.
Qed.

Lemma should_stop_first_match_witness :
  should_stop {| total_budget := 50 |}
    (create_initial_state "task" ∅ "/code/rtl/top.sv" 50 0)
  = (false, "Continue"%string).
Proof.
  apply (should_stop_first_match {| total_budget := 50 |}
           (create_initial_state "task" ∅ "/code/rtl/top.sv" 50 0));
    simpl; try lia; intros [H _]; discriminate.
Defined.

(** C2, as the code has it.  With a cap of 50 the zone is GREEN at 10
    used, ORANGE at 35 (15 remain), RED at 42 (8 remain) and RED at 48; for
    every cap the zone is read off [remaining = cap - used] with the
    thresholds 40, 20 and 10. *)
Theorem get_budget_zone_thresholds :
  let bm := {| total_budget := 50 |} in
  get_budget_zone bm 10 = "GREEN"%string /\
  get_budget_zone bm 35 = "ORANGE"%string /\
  get_budget_zone bm 42 = "RED"%string /\
  get_budget_zone bm 48 = "RED"%string /\
  forall (self : BudgetManager) (used : Z),
    let remaining := total_budget self - used in
    (40 <= remaining -> get_budget_zone self used = "GREEN"%string) /\
    (20 <= remaining < 40 -> get_budget_zone self used = "YELLOW"%string) /\
    (10 <= remaining < 20 -> get_budget_zone self used = "ORANGE"%string) /\
    (remaining < 10 -> get_budget_zone self used = "RED"%string).
Proof.
  repeat split; try reflexivity; unfold get_budget_zone; cbv zeta; intros H;
    repeat (match goal with
            | |- context [?a >=? ?b] => destruct (Z.geb_spec a b)
            end; try lia); reflexivity.
Qed.

Lemma get_budget_zone_thresholds_witness :
  get_budget_zone {| total_budget := 50 |} 20 = "YELLOW"%string.
Proof.
  apply (get_budget_zone_thresholds); simpl; lia.
Defined.

(** C2 as stated fails: 35 used of 50 is not YELLOW and 42 used is not
    ORANGE. *)
Lemma get_budget_zone_claimed_values_fail :
  let bm := {| total_budget := 50 |} in
  ~ (get_budget_zone bm 10 = "GREEN"%string /\
     get_budget_zone bm 35 = "YELLOW"%string /\
     get_budget_zone bm 42 = "ORANGE"%string /\
     get_budget_zone bm 48 = "RED"%string).
Proof.
  intros bm (_ & H & _). vm_compute in H. discriminate.
Qed.

(** ** Error categorizer *)

(** C8. [categorize_errors] answers within the closed set of categories;
    it lowers the text and tries the keyword groups in the order syntax,
    undeclared, type, width, latch, timing, the first group with a keyword
    in the text deciding, and answers "general" when none has one.  A text
    with both "syntax error" and "undeclared signal", in any letter case,
    is "syntax". *)
Theorem categorize_errors_priority (errors : text) :
  let low := lower errors in
  let syntax := occurs_any [T "syntax error"; T "parse error"; T "unexpected"; T "expected"] low in
  let undeclared := occurs_any [T "undeclared"; T "undefined"; T "not declared"] low in
  let type := occurs_any [T "type mismatch"; T "incompatible types"] low in
  let width := occurs_any [T "width"; T "bit width"; T "size mismatch"] low in
  let latch := occurs (T "latch") low in
  let timing := occurs_any [T "timing"; T "setup"; T "hold"] low in
  In (Runner.categorize_errors errors) categories /\
  (syntax -> Runner.categorize_errors errors = "syntax"%string) /\
  (~ syntax -> undeclared -> Runner.categorize_errors errors = "undeclared"%string) /\
  (~ syntax -> ~ undeclared -> type -> Runner.categorize_errors errors = "type"%string) /\
  (~ syntax -> ~ undeclared -> ~ type -> width ->
     Runner.categorize_errors errors = "width"%string) /\
  (~ syntax -> ~ undeclared -> ~ type -> ~ width -> latch ->
     Runner.categorize_errors errors = "latch"%string) /\
  (~ syntax -> ~ undeclared -> ~ type -> ~ width -> ~ latch -> timing ->
     Runner.categorize_errors errors = "timing"%string) /\
  (~ syntax -> ~ undeclared -> ~ type -> ~ width -> ~ latch -> ~ timing ->
     Runner.categorize_errors errors = "general"%string) /\
  (forall kw1 kw2 : text,
     lower kw1 = T "syntax error" -> lower kw2 = T "undeclared signal" ->
     occurs kw1 errors -> occurs kw2 errors ->
     Runner.categorize_errors errors = "syntax"%string).
Proof.
  cbv zeta. unfold Runner.categorize_errors. cbv zeta.
  set (low := lower errors).
  assert (Hkw : forall kw1 : text, lower kw1 = T "syntax error" -> occurs kw1 errors ->
                any_in [T "syntax error"; T "parse error"; T "unexpected"; T "expected"] low = true).
  { intros kw1 E H. apply any_in_occurs. exists (T "syntax error").
    split; [left; reflexivity|]. rewrite <- E. apply occurs_lower, H. }
  rewrite <- !any_in_occurs, <- !contains_occurs.
  destruct (any_in [T "syntax error"; T "parse error"; T "unexpected"; T "expected"] low) eqn:E1;
  [|destruct (any_in [T "undeclared"; T "undefined"; T "not declared"] low) eqn:E2;
  [|destruct (any_in [T "type mismatch"; T "incompatible types"] low) eqn:E3;
  [|destruct (any_in [T "width"; T "bit width"; T "size mismatch"] low) eqn:E4;
  [|destruct (contains (T "latch") low) eqn:E5;
  [|destruct (any_in [T "timing"; T "setup"; T "hold"] low) eqn:E6]]]]];
  (repeat split;
   [ unfold categories; simpl; tauto
   | try (intros; first [reflexivity | congruence | exfalso; eauto; congruence]) .. ]).
  all: intros kw1 kw2 Hk1 _ Ho1 _; specialize (Hkw kw1 Hk1 Ho1); congruence.
Qed.

Lemma categorize_errors_priority_witness :
  Runner.categorize_errors
    (T "top.sv:3: Syntax Error near `;' -- Undeclared Signal q") = "syntax"%string.
Proof.
  apply (categorize_errors_priority
           (T "top.sv:3: Syntax Error near `;' -- Undeclared Signal q"))
    with (kw1 := T "Syntax Error") (kw2 := T "Undeclared Signal").
  - reflexivity.
  - reflexivity.
  - exists (T "top.sv:3: "), (T " near `;' -- Undeclared Signal q"). reflexivity.
  - exists (T "top.sv:3: Syntax Error near `;' -- "), (T " q"). reflexivity.
Defined.

(** ** Planner fallback *)

Section PlannerFallback.
Variable json_loads : text -> Planner.decoding.

Lemma parse_json_output_none (output : text) :
  ~ occurs (T "{") output \/ ~ occurs (T "}") output \/
  json_loads (brace_span output) = Planner.JSONDecodeError ->
  Planner.parse_json_output json_loads output = Planner.Parsed None.
Proof.
  unfold Planner.parse_json_output, brace_span.
  rewrite <- !contains_false.
  intros [H|[H|H]].
  - rewrite H. reflexivity.
  - rewrite H, andb_false_r. reflexivity.
  - cbv zeta. rewrite H. destruct (contains _ _ && contains _ _); reflexivity.
Qed.

Lemma parse_json_output_some (output : text) (d : gmap string jvalue) :
  Planner.parse_json_output json_loads output = Planner.Parsed (Some d) ->
  json_loads (brace_span output) = Planner.Object d.
Proof.
  unfold Planner.parse_json_output, brace_span. cbv zeta.
  destruct (contains _ _ && contains _ _); [|discriminate].
  destruct (json_loads _) as [d'| |e]; intros [=]. subst d'. reflexivity.
Qed.

Lemma parse_json_output_escapes (output : text) (e : string) :
  Planner.parse_json_output json_loads output = Planner.Escapes e <->
  occurs (T "{") output /\ occurs (T "}") output /\
  json_loads (brace_span output) = Planner.OtherError e.
Proof.
  unfold Planner.parse_json_output, brace_span. cbv zeta.
  rewrite <- !contains_occurs.
  destruct (contains (T "{") output), (contains (T "}") output); simpl;
    try (split; [discriminate|intros (H1 & H2 & _); discriminate]).
  destruct (json_loads _) as [d| |e']; split;
    try discriminate; try (intros (_ & _ & H); discriminate H).
  - intros [= ->]. auto.
  - intros (_ & _ & [= ->]). reflexivity.
Qed.

(** When the policy returns and its output holds no brace pair, or the
    decoder rejects the text between the braces with [JSONDecodeError], or
    the object has no ["next_action"], [decide_next_action] answers the
    default decision, whose action is "code_gen"; when the policy raises,
    it answers a decision whose action is "complete". *)
Lemma decide_next_action_fallback :
  (forall out : option text,
     let output := default [] out in
     (~ occurs (T "{") output \/ ~ occurs (T "}") output \/
      json_loads (brace_span output) = Planner.JSONDecodeError \/
      exists d, json_loads (brace_span output) = Planner.Object d /\
                d !! "next_action"%string = None) ->
     Planner.decide_next_action json_loads (Planner.Returned out) = Planner.default_decision /\
     Planner.default_decision !! "next_action"%string = Some (JStr "code_gen") /\
     Planner.default_decision !! "reasoning"%string =
       Some (JStr "Default action due to parsing error")) /\
  (forall e : string,
     Planner.decide_next_action json_loads (Planner.Raised e) !! "next_action"%string =
       Some (JStr "complete") /\
     Planner.decide_next_action json_loads (Planner.Raised e) !! "reasoning"%string =
       Some (JStr (String.append "Error occurred: " e))).
Proof.
  split.
  - intros out output Hbad. split; [|split; reflexivity].
    unfold Planner.decide_next_action. fold output.
    destruct Hbad as [H|[H|[H|(d & H & Hk)]]];
      try (rewrite parse_json_output_none by tauto; reflexivity).
    destruct (Planner.parse_json_output json_loads output) as [e|[d'|]] eqn:E;
      [| |reflexivity].
    + apply parse_json_output_escapes in E as (_ & _ & E). congruence.
    + apply parse_json_output_some in E. rewrite H in E. injection E as <-.
      unfold Planner.has_key. rewrite Hk, andb_false_r. reflexivity.
  - intros e. split; reflexivity.
Qed.

(** The brace pair is there, the text decodes and has its action: the
    decision is the decoded object itself. *)
Lemma decide_next_action_valid (output : text) (d : gmap string jvalue) (v : jvalue) :
  Planner.parse_json_output json_loads output = Planner.Parsed (Some d) ->
  d !! "next_action"%string = Some v ->
  Planner.decide_next_action json_loads (Planner.Returned (Some output)) = d.
Proof.
  intros E Hk. unfold Planner.decide_next_action. simpl. rewrite E.
  unfold Planner.has_key, Planner.nonempty. rewrite Hk.
  destruct (decide (size d = 0%nat)) as [Hz|Hz].
  - apply map_size_empty_iff in Hz. subst d. rewrite lookup_empty in Hk. discriminate.
  - apply Nat.eqb_neq in Hz. rewrite Hz. reflexivity.
Qed.

(** C6 on the code.  [parse_json_output] catches [json.JSONDecodeError]
    only.  When the policy returns an output with a brace pair and
    [json.loads] raises another exception on the text between the braces,
    the exception ends in the [except Exception] branch of
    [decide_next_action]: the decision is the one of a failed invocation,
    with action "complete" and the exception's text as the reason, and not
    the default decision with action "code_gen". *)
Theorem decide_next_action_decoder_error (out : option text) (e : string) :
  let output := default [] out in
  occurs (T "{") output -> occurs (T "}") output ->
  json_loads (brace_span output) = Planner.OtherError e ->
  Planner.decide_next_action json_loads (Planner.Returned out) = Planner.error_decision e /\
  Planner.decide_next_action json_loads (Planner.Returned out) !! "next_action"%string =
    Some (JStr "complete") /\
  Planner.decide_next_action json_loads (Planner.Returned out) <> Planner.default_decision.
Proof.
  intros output H1 H2 H3.
  assert (E : Planner.decide_next_action json_loads (Planner.Returned out) =
              Planner.error_decision e).
  { unfold Planner.decide_next_action. fold output.
    rewrite (proj2 (parse_json_output_escapes output e)) by auto. reflexivity. }
  rewrite E. split; [reflexivity|]. split; [reflexivity|].
  intros Heq.
  assert (Hk : Planner.error_decision e !! "next_action"%string =
               Planner.default_decision !! "next_action"%string) by (rewrite Heq; reflexivity).
  vm_compute in Hk. discriminate Hk.
Qed.

End PlannerFallback.

Lemma decide_next_action_fallback_example :
  Planner.decide_next_action (fun _ => Planner.JSONDecodeError)
    (Planner.Returned (Some (T "I think we should generate code next."))) =
  Planner.default_decision.
Proof.
  apply (decide_next_action_fallback (fun _ => Planner.JSONDecodeError)).
  left. apply contains_false. reflexivity.
Qed.

Lemma decide_next_action_decoder_error_witness :
  Planner.decide_next_action sample_json_loads (Planner.Returned (Some oversized_output)) =
    Planner.error_decision int_limit_message /\
  Planner.decide_next_action sample_json_loads (Planner.Returned (Some oversized_output))
    !! "next_action"%string = Some (JStr "complete") /\
  Planner.decide_next_action sample_json_loads (Planner.Returned (Some oversized_output)) <>
    Planner.default_decision.
Proof.
  apply (decide_next_action_decoder_error sample_json_loads (Some oversized_output)
           int_limit_message).
  - apply contains_occurs. vm_compute. reflexivity.
  - apply contains_occurs. vm_compute. reflexivity.
  - vm_compute. reflexivity.
Defined.

(** ** Control loop *)

Lemma insert_true_keeps (m : gmap Z bool) (tier k : Z) :
  m !! k = Some true -> <[tier := true]> m !! k = Some true.
Proof.
  intros H. destruct (decide (tier = k)) as [->|Hne].
  - apply lookup_insert_eq.
  - rewrite lookup_insert_ne by exact Hne. exact H.
Qed.

Lemma planner_node_stop (agents : Agents) (state : VerilogState) :
  fst (should_stop {| total_budget := max_invocations state |} state) = true ->
  completed (planner_node agents state) = true /\
  next_action (planner_node agents state) = JStr "complete" /\
  route_from_planner (planner_node agents state) = END.
Proof.
  unfold planner_node.
  destruct (should_stop _ state) as [stop reason]. simpl. intros ->.
  repeat split.
Qed.

Lemma planner_node_tiers (agents : Agents) (state : VerilogState) :
  tier_achievements (planner_node agents state) = tier_achievements state /\
  current_tier (planner_node agents state) = current_tier state /\
  success (planner_node agents state) = success state /\
  consecutive_failures (planner_node agents state) = consecutive_failures state.
Proof.
  unfold planner_node.
  destruct (should_stop _ state) as [[|] reason]; repeat split.
Qed.

Lemma step_tiers (config : ReActConfig) (agents : Agents)
    (node : Node) (state : VerilogState) (k : Z) :
  let state' := snd (step config agents (node, state)) in
  (tier_achievements state !! k = Some true ->
   tier_achievements state' !! k = Some true) /\
  current_tier state <= current_tier state'.
Proof.
  destruct node; simpl.
  - destruct (planner_node_tiers agents state) as (-> & -> & _). split; [auto|lia].
  - split; [auto|lia].
  - destruct (Z.ltb_spec (current_tier state) (default 0 (v_tier_achieved (validate agents state))));
      split; auto using insert_true_keeps; lia.
  - destruct (Z.ltb_spec (current_tier state) (default 0 (t_tier_achieved (test agents state))));
      split; auto using insert_true_keeps; lia.
  - split; [auto|lia].
  - split; [auto|lia].
Qed.

(** C4. Along any number of workflow steps from any point of a session, a
    tier flag that is true stays true and [current_tier] does not go down;
    and a Validator or Tester step whose reported [tier_achieved] exceeds
    [current_tier] raises [current_tier] to it and sets that tier's flag. *)
Theorem tiers_never_regress (config : ReActConfig) (agents : Agents) :
  (forall (n : nat) (at_ : Node * VerilogState) (k : Z),
     let state := snd at_ in
     let state' := snd (steps config agents n at_) in
     (tier_achievements state !! k = Some true ->
      tier_achievements state' !! k = Some true) /\
     current_tier state <= current_tier state') /\
  (forall state : VerilogState,
     let tier := default 0 (v_tier_achieved (validate agents state)) in
     let state' := validator_node agents state in
     tier > current_tier state ->
     current_tier state' = tier /\ tier_achievements state' !! tier = Some true) /\
  (forall state : VerilogState,
     let tier := default 0 (t_tier_achieved (test agents state)) in
     let state' := tester_node config agents state in
     tier > current_tier state ->
     current_tier state' = tier /\ tier_achievements state' !! tier = Some true).
Proof.
  split; [|split].
  - induction n as [|n IH]; intros [node state] k.
    + simpl. split; [auto|lia].
    + pose proof (step_tiers config agents node state k) as [Hf Ht].
      pose proof (IH (step config agents (node, state)) k) as [Hf' Ht'].
      split.
      * intros H. apply Hf', Hf, H.
      * etransitivity; [exact Ht|exact Ht'].
  - intros state tier state' H. subst state'. unfold validator_node. simpl. fold tier.
    destruct (Z.ltb_spec (current_tier state) tier); [|lia].
    split; [reflexivity|apply lookup_insert_eq].
  - intros state tier state' H. subst state'. unfold tester_node. simpl. fold tier.
    destruct (Z.ltb_spec (current_tier state) tier); [|lia].
    split; [reflexivity|apply lookup_insert_eq].
Qed.

Lemma tiers_never_regress_witness :
  let agents := fixed_agents "validator" true 2 false in
  let state := create_initial_state "2-bit counter" ∅ "/code/rtl/top.sv" 10 0 in
  current_tier (validator_node agents state) = 2 /\
  tier_achievements (validator_node agents state) !! 2 = Some true.
Proof.
  intros agents state.
  apply (tiers_never_regress default_config agents). simpl. lia.
Defined.

Lemma failing_run_counter (config : ReActConfig) (agents : Agents)
    (n : nat) (at_ at' : Node * VerilogState) :
  failing_run config agents n at_ at' ->
  consecutive_failures (snd at') = consecutive_failures (snd at_) + Z.of_nat n.
Proof.
  induction 1 as [at_|n state at' _ IH|n state at' _ IH|n state at' Hfail _ IH].
  - simpl. lia.
  - rewrite IH. simpl.
    destruct (planner_node_tiers agents state) as (_ & _ & _ & ->). reflexivity.
  - rewrite IH. simpl. reflexivity.
  - rewrite IH. simpl. rewrite Hfail. lia.
Qed.

Lemma route_not_planner (state : VerilogState) : route_from_planner state <> planner.
Proof.
  unfold route_from_planner.
  repeat match goal with |- context [if ?b then _ else _] => destruct b end;
    discriminate.
Qed.

Lemma planner_continues (agents : Agents) (state : VerilogState) :
  route_from_planner (planner_node agents state) <> END ->
  should_stop {| total_budget := max_invocations state |} state = (false, "Continue"%string).
Proof.
  intros H.
  destruct (should_stop {| total_budget := max_invocations state |} state) as [[|] reason] eqn:E.
  - exfalso. apply H. apply planner_node_stop. rewrite E. reflexivity.
  - revert E. unfold should_stop.
    repeat match goal with |- context [if ?b then _ else _] => destruct b end;
      congruence.
Qed.

Lemma continue_not_succeeded (self : BudgetManager) (state : VerilogState) :
  should_stop self state = (false, "Continue"%string) -> succeeded state = false.
Proof.
  unfold should_stop, succeeded.
  destruct (agent_invocations state >=? total_budget self); [discriminate|].
  destruct (success state && get_flag (tier_achievements state) 3); [discriminate|].
  reflexivity.
Qed.

Lemma failing_run_not_succeeded (config : ReActConfig) (agents : Agents)
    (n : nat) (at_ at' : Node * VerilogState) :
  failing_run config agents n at_ at' ->
  (is_specialist (fst at_) = true -> succeeded (snd at_) = false) ->
  fst at' = planner ->
  (n = 0%nat /\ at_ = at') \/ succeeded (snd at') = false.
Proof.
  induction 1 as [at_|n state at' _ IH|n state at' _ IH|n state at' Hfail _ IH];
    intros Hinv Hend.
  - left. split; reflexivity.
  - right. simpl in IH.
    destruct IH as [[_ E]|IH]; [|exact Hend| |exact IH].
    + intros Hs. unfold succeeded.
      destruct (planner_node_tiers agents state) as (-> & _ & -> & _).
      apply (continue_not_succeeded {| total_budget := max_invocations state |}).
      apply (planner_continues agents).
      intros Hr. rewrite Hr in Hs. discriminate.
    + rewrite <- E in Hend. simpl in Hend. exfalso. exact (route_not_planner _ Hend).
  - right. simpl in IH. specialize (Hinv eq_refl). simpl in Hinv.
    destruct IH as [[_ E]|IH]; [discriminate|exact Hend| |exact IH].
    rewrite <- E. exact Hinv.
  - right. simpl in IH. specialize (Hinv eq_refl). simpl in Hinv.
    destruct IH as [[_ E]|IH]; [discriminate|exact Hend| |exact IH].
    rewrite <- E. exact Hinv.
Qed.

(** C5, as the code has it.  A successful generation sets
    [consecutive_failures] to 0; a failed generation and a failed test each
    add 1.  After a stretch in which generation failed five times with no
    validator or tester call in between, the next planner step stops the
    loop, and it does so with the consecutive-failures reason whenever
    invocations are left; with none left the budget reason comes first. *)
Theorem consecutive_failures_stop (config : ReActConfig) (agents : Agents) :
  (forall state : VerilogState,
     truthy (g_success (generate_code agents state)) = true ->
     consecutive_failures (code_gen_node agents state) = 0) /\
  (forall state : VerilogState,
     truthy (g_success (generate_code agents state)) = false ->
     consecutive_failures (code_gen_node agents state) = consecutive_failures state + 1) /\
  (forall state : VerilogState,
     truthy (t_passed (test agents state)) = false ->
     consecutive_failures (tester_node config agents state) =
       consecutive_failures state + 1) /\
  (forall state state' : VerilogState,
     0 <= consecutive_failures state ->
     failing_run config agents 5 (planner, state) (planner, state') ->
     let self := {| total_budget := max_invocations state' |} in
     fst (should_stop self state') = true /\
     step config agents (planner, state') = (END, planner_node agents state') /\
     completed (planner_node agents state') = true /\
     (agent_invocations state' < max_invocations state' ->
      should_stop self state' = (true, "Too many consecutive failures"%string)) /\
     (agent_invocations state' >= max_invocations state' ->
      should_stop self state' = (true, "Budget exhausted"%string))).
Proof.
  split; [|split; [|split]].
  - intros state H. unfold code_gen_node. simpl. rewrite H. reflexivity.
  - intros state H. unfold code_gen_node. simpl. rewrite H. reflexivity.
  - intros state H. unfold tester_node. simpl. rewrite H. reflexivity.
  - intros state state' Hpos Hrun self.
    pose proof (failing_run_counter _ _ _ _ _ Hrun) as Hcf. simpl in Hcf.
    destruct (failing_run_not_succeeded _ _ _ _ _ Hrun) as [[E _]|Hs];
      [discriminate|reflexivity|discriminate|]. simpl in Hs.
    assert (Hstop : fst (should_stop self state') = true /\
              (agent_invocations state' < max_invocations state' ->
               should_stop self state' = (true, "Too many consecutive failures"%string)) /\
              (agent_invocations state' >= max_invocations state' ->
               should_stop self state' = (true, "Budget exhausted"%string))).
    { unfold should_stop. fold (succeeded state'). rewrite Hs. simpl.
      destruct (Z.geb_spec (agent_invocations state') (max_invocations state'));
      destruct (Z.geb_spec (consecutive_failures state') 5);
        repeat split; intros; first [reflexivity | lia]. }
    destruct Hstop as (H1 & H2 & H3).
    destruct (planner_node_stop agents state' H1) as (Hc & _ & Hr).
    repeat split; try assumption.
    simpl. rewrite Hr. reflexivity.
Qed.

Lemma failing_run_planner_to (config : ReActConfig) (agents : Agents) (n : nat)
    (state : VerilogState) (at1 at' : Node * VerilogState) :
  step config agents (planner, state) = at1 ->
  failing_run config agents n at1 at' ->
  failing_run config agents n (planner, state) at'.
Proof. intros <-. apply fr_planner. Qed.

Lemma failing_run_code_gen_to (config : ReActConfig) (agents : Agents) (n : nat)
    (state : VerilogState) (at1 at' : Node * VerilogState) :
  truthy (g_success (generate_code agents state)) = false ->
  step config agents (code_gen, state) = at1 ->
  failing_run config agents n at1 at' ->
  failing_run config agents (S n) (code_gen, state) at'.
Proof. intros H <-. apply fr_code_gen, H. Qed.

(** Build a [failing_run] between evaluated configurations by running the
    graph one super-step at a time. *)
Ltac run_failing :=
  repeat match goal with
  | |- failing_run _ _ 0 ?a ?a => apply fr_done
  | |- failing_run ?c ?g ?n (planner, ?s) ?b =>
      let x := eval vm_compute in (step c g (planner, s)) in
      apply (failing_run_planner_to c g n s x b); [vm_compute; reflexivity|]
  | |- failing_run ?c ?g (S ?n) (code_gen, ?s) ?b =>
      let x := eval vm_compute in (step c g (code_gen, s)) in
      apply (failing_run_code_gen_to c g n s x b);
        [vm_compute; reflexivity|vm_compute; reflexivity|]
  end.

Lemma failing_session_states :
  start50 = create_initial_state "2-bit counter" ∅ "/code/rtl/top.sv" 50 0 /\
  start10 = create_initial_state "2-bit counter" ∅ "/code/rtl/top.sv" 10 0 /\
  steps default_config failing_agents 10 (planner, start50) = (planner, after50) /\
  steps default_config failing_agents 10 (planner, start10) = (planner, after10).
Proof. repeat split; vm_compute; reflexivity. Qed.

Lemma consecutive_failures_stop_witness :
  should_stop {| total_budget := max_invocations after50 |} after50 =
    (true, "Too many consecutive failures"%string).
Proof.
  destruct (consecutive_failures_stop default_config failing_agents) as (_ & _ & _ & H).
  destruct (H start50 after50) as (_ & _ & _ & Hlt & _).
  - vm_compute. discriminate.
  - unfold start50, after50. run_failing.
  - apply Hlt. vm_compute. reflexivity.
Defined.

(** C5 as stated fails when the five failures use up the budget: with a
    cap of 10, five planner and five failed generation calls leave no
    invocation, and the stop reason is the budget, not the failures. *)
Lemma consecutive_failures_reason_depends_on_budget :
  failing_run default_config failing_agents 5 (planner, start10) (planner, after10) /\
  consecutive_failures after10 = 5 /\
  should_stop {| total_budget := max_invocations after10 |} after10 =
    (true, "Budget exhausted"%string) /\
  snd (should_stop {| total_budget := max_invocations after10 |} after10) <>
    "Too many consecutive failures"%string.
Proof.
  split; [unfold start10, after10; run_failing|].
  split; [vm_compute; reflexivity|]. split; [vm_compute; reflexivity|].
  vm_compute. discriminate.
Qed.

(** No stop test reads the clock: [should_stop] and the routing give the
    same answer whatever [start_time], [execution_time] and [timeout]
    hold. *)
Lemma stop_tests_ignore_clock (self : BudgetManager) (state : VerilogState)
    (start elapsed : Z) (hit : bool) :
  should_stop self (with_clock start elapsed hit state) = should_stop self state /\
  route_from_planner (with_clock start elapsed hit state) = route_from_planner state.
Proof. split; reflexivity. Qed.

(** C3 on the code.  A session that started at second 0 and whose planner
    runs at second 1000, past the 900 seconds of [max_time_seconds], with
    48 of 50 invocations left: nothing stops it, the planner dispatches to
    the generator and the [timeout] flag stays unset. *)
Theorem session_timeout_not_checked :
  let config := default_config in
  let agents := fixed_agents "code_gen" true 0 false in
  let state := create_initial_state "2-bit counter" ∅ "/code/rtl/top.sv"
                 (max_agent_invocations config) 0 in
  let now := 1000 in
  let state1 := snd (steps config agents 2 (planner, state)) in
  now - start_time state1 > max_time_seconds config /\
  agent_invocations state1 < max_invocations state1 /\
  should_stop {| total_budget := max_invocations state1 |} state1 =
    (false, "Continue"%string) /\
  step config agents (planner, state1) = (code_gen, planner_node agents state1) /\
  completed (planner_node agents state1) = false /\
  timeout (planner_node agents state1) = false.
Proof.
  cbv zeta. repeat split; try reflexivity; vm_compute; reflexivity.
Qed.

Lemma same_or_longer_trans (a b c : string) :
  same_or_longer a b -> same_or_longer b c -> same_or_longer a c.
Proof.
  unfold same_or_longer. intros [->|H1] [->|H2]; auto. right. lia.
Qed.

Lemma step_best_code (config : ReActConfig) (agents : Agents)
    (node : Node) (state : VerilogState) (best : string) :
  best_code state = Some best ->
  exists best', best_code (snd (step config agents (node, state))) = Some best' /\
                same_or_longer best best'.
Proof.
  intros Hbest. destruct node; simpl;
    try (exists best; split; [exact Hbest|left; reflexivity]).
  - exists best. split; [|left; reflexivity].
    unfold planner_node. destruct (should_stop _ state) as [[|] reason]; exact Hbest.
  - rewrite Hbest. simpl.
    destruct (truthy (g_success (generate_code agents state))); simpl;
      [|exists best; split; [reflexivity|left; reflexivity]].
    destruct (String.eqb_spec best "") as [->|Hne]; simpl.
    + exists (g_code (generate_code agents state)). split; [reflexivity|].
      destruct (g_code (generate_code agents state)); [left; reflexivity|right; simpl; lia].
    + destruct (Z.ltb_spec (Z.of_nat (String.length best))
                  (Z.of_nat (String.length (g_code (generate_code agents state))))).
      * exists (g_code (generate_code agents state)). split; [reflexivity|right; exact H].
      * exists best. split; [reflexivity|left; reflexivity].
Qed.

(** C9. Once [best_code] is set it stays set along any number of workflow
    steps, and it only ever changes to a strictly longer candidate, so its
    length never decreases.  A successful generation makes [current_code]
    the new candidate as a whole; a failed one and every other node leave
    [current_code] as it was. *)
Theorem best_code_never_shrinks (config : ReActConfig) (agents : Agents) :
  (forall (n : nat) (at_ : Node * VerilogState) (best : string),
     best_code (snd at_) = Some best ->
     exists best', best_code (snd (steps config agents n at_)) = Some best' /\
                   same_or_longer best best' /\
                   len (Some best) <= len (Some best')) /\
  (forall state : VerilogState,
     truthy (g_success (generate_code agents state)) = true ->
     current_code (code_gen_node agents state) =
       Some (g_code (generate_code agents state))) /\
  (forall (node : Node) (state : VerilogState),
     node <> code_gen \/ truthy (g_success (generate_code agents state)) = false ->
     current_code (snd (step config agents (node, state))) = current_code state).
Proof.
  split; [|split].
  - assert (Hrun : forall n at_ best, best_code (snd at_) = Some best ->
              exists best', best_code (snd (steps config agents n at_)) = Some best' /\
                            same_or_longer best best').
    { induction n as [|n IH]; intros [node state] best Hbest.
      - exists best. split; [exact Hbest|left; reflexivity].
      - destruct (step_best_code config agents node state best Hbest) as (b1 & H1 & L1).
        destruct (IH (step config agents (node, state)) b1 H1) as (b2 & H2 & L2).
        exists b2. split; [exact H2|exact (same_or_longer_trans _ _ _ L1 L2)]. }
    intros n at_ best Hbest. destruct (Hrun n at_ best Hbest) as (b' & H & L).
    exists b'. repeat split; try assumption. destruct L as [->|L]; lia.
  - intros state H. unfold code_gen_node. simpl. rewrite H. reflexivity.
  - intros node state [Hn|Hf]; destruct node; simpl; try reflexivity; try congruence.
    + unfold planner_node. destruct (should_stop _ state) as [[|] reason]; reflexivity.
    + unfold planner_node. destruct (should_stop _ state) as [[|] reason]; reflexivity.
    + rewrite Hf. reflexivity.
Qed.

Lemma best_code_never_shrinks_witness :
  let agents := fixed_agents "code_gen" true 0 false in
  let state := create_initial_state "2-bit counter" ∅ "/code/rtl/top.sv" 10 0 in
  current_code (code_gen_node agents state) = Some "module m(); endmodule"%string.
Proof.
  intros agents state.
  apply (best_code_never_shrinks default_config agents). reflexivity.
Defined.

(** C10. When the stop test fires at a planner step, [planner_node] sets
    [completed] and makes [next_action] "complete" and changes nothing
    else: the invocation counters and the reasoning trace are as before,
    and the result is the same whatever the agents are, the planning
    policy not being called. *)
Theorem planner_node_stop_frame (agents : Agents) (state : VerilogState) :
  fst (should_stop {| total_budget := max_invocations state |} state) = true ->
  planner_node agents state = stopped state /\
  completed (planner_node agents state) = true /\
  next_action (planner_node agents state) = JStr "complete" /\
  agent_invocations (planner_node agents state) = agent_invocations state /\
  planner_calls (planner_node agents state) = planner_calls state /\
  specialist_calls (planner_node agents state) = specialist_calls state /\
  planner_reasoning (planner_node agents state) = planner_reasoning state /\
  forall agents' : Agents, planner_node agents' state = planner_node agents state.
Proof.
  unfold planner_node.
  destruct (should_stop _ state) as [stop reason]. simpl. intros ->.
  repeat split.
Qed.

Lemma planner_node_stop_frame_witness :
  planner_node failing_agents after50 = stopped after50.
Proof.
  apply (planner_node_stop_frame failing_agents after50). vm_compute. reflexivity.
Defined.

(** ** Response parser *)

Lemma first_index_spec (P : text -> bool) (s : text) (n : nat) :
  first_index P s = Some n ->
  P (drop n s) = true /\ forall i, (i < n)%nat -> P (drop i s) = false.
Proof.
  revert n. induction s as [|c s IH]; intros n; simpl.
  - destruct (P []) eqn:E; [|discriminate].
    intros [= <-]. split; [exact E|intros i Hi; lia].
  - destruct (P (c :: s)) eqn:E.
    + intros [= <-]. split; [exact E|intros i Hi; lia].
    + destruct (first_index P s) as [m|]; [|discriminate].
      simpl. intros [= <-]. destruct (IH m eq_refl) as [H1 H2].
      split; [exact H1|]. intros [|i] Hi; [exact E|]. simpl. apply H2. lia.
Qed.

(** *** The matcher on the pieces of the patterns *)

Lemma literal_lit_seq (w : string) : literal w = lit_seq (T w).
Proof. reflexivity. Qed.

Lemma lower_length (s : text) : length (lower s) = length s.
Proof. apply length_map. Qed.

Section Matching.
Context {A : Type}.
Implicit Types (k : text -> option A) (s x rest : text).

Lemma run_lit_seq_app (l x rest : text) k :
  lower x = lower l -> run (lit_seq l) (x ++ rest) k = k rest.
Proof.
  revert x. induction l as [|c l IH]; intros [|a x] H; simpl in *;
    try discriminate; [reflexivity|].
  injection H as Hc Hx. rewrite Hc, Ascii.eqb_refl. apply IH, Hx.
Qed.

Lemma run_lit_seq_fail (l s : text) k :
  starts_with (lower l) (lower s) = false -> run (lit_seq l) s k = None.
Proof.
  revert s. induction l as [|c l IH]; intros [|a s] H; simpl in *;
    try discriminate; [reflexivity|].
  destruct (Ascii.eqb_spec (lower_char a) (lower_char c)) as [E|E]; [|reflexivity].
  rewrite E, Ascii.eqb_refl in H. apply IH, H.
Qed.

Lemma run_lit_seq_inv (l s : text) k (a : A) :
  run (lit_seq l) s k = Some a ->
  exists x rest, s = x ++ rest /\ lower x = lower l /\ k rest = Some a.
Proof.
  revert s. induction l as [|c l IH]; intros s H; simpl in H.
  - exists [], s. auto.
  - destruct s as [|b s]; [discriminate|].
    destruct (Ascii.eqb_spec (lower_char b) (lower_char c)) as [E|E]; [|discriminate].
    destruct (IH _ H) as (x & rest & -> & Hx & Hk).
    exists (b :: x), rest. simpl. rewrite E, Hx. auto.
Qed.

Lemma greedy_inv (p : ascii -> bool) s k (a : A) :
  greedy p s k = Some a ->
  exists x rest, s = x ++ rest /\ forallb p x = true /\ k rest = Some a.
Proof.
  induction s as [|c s IH]; simpl; intros H.
  - exists [], []. auto.
  - destruct (p c) eqn:Hp.
    + destruct (greedy p s k) as [a'|] eqn:E.
      * injection H as <-. destruct (IH eq_refl) as (x & rest & -> & Hx & Hk).
        exists (c :: x), rest. simpl. rewrite Hp, Hx. auto.
      * exists [], (c :: s). auto.
    + exists [], (c :: s). auto.
Qed.

(** A greedy star over a maximal run [x] whose continuation accepts what
    follows takes exactly [x]. *)
Lemma greedy_all (p : ascii -> bool) x rest k (a : A) :
  forallb p x = true -> stops p rest -> k rest = Some a ->
  greedy p (x ++ rest) k = Some a.
Proof.
  intros Hx Hstop Hk. induction x as [|c x IH]; simpl in *.
  - destruct rest as [|c rest]; simpl in *; [exact Hk|].
    rewrite Hstop. exact Hk.
  - apply andb_prop in Hx as [Hc Hx]. rewrite Hc, (IH Hx). reflexivity.
Qed.

(** A lazy star stops at the first place where its continuation accepts. *)
Lemma lazy_first (m t : text) k (a : A) :
  (forall i, (i < length m)%nat -> k (drop i (m ++ t)) = None) ->
  k t = Some a ->
  lazy dot (m ++ t) k = Some a.
Proof.
  intros Hnone Hk. induction m as [|c m IH]; simpl.
  - destruct t; simpl; rewrite Hk; reflexivity.
  - pose proof (Hnone 0%nat ltac:(simpl; lia)) as H0. simpl in H0. rewrite H0.
    unfold dot at 1.
    apply IH. intros i Hi. apply (Hnone (S i)). simpl. lia.
Qed.

End Matching.

Lemma word_not_space (c : ascii) : is_word c = true -> is_space c = false.
Proof.
  destruct c as [[] [] [] [] [] [] [] []]; vm_compute; congruence.
Qed.

Lemma lower_not_space (c d : ascii) :
  lower_char c = d -> is_space d = false -> is_space c = false.
Proof.
  intros <-. destruct c as [[] [] [] [] [] [] [] []]; vm_compute; congruence.
Qed.

Lemma lstrip_run (x rest : text) :
  forallb is_space x = true -> stops is_space rest -> lstrip (x ++ rest) = rest.
Proof.
  intros Hx Hstop. induction x as [|c x IH]; simpl in *.
  - destruct rest as [|c rest]; simpl in *; [reflexivity|]. rewrite Hstop. reflexivity.
  - apply andb_prop in Hx as [Hc Hx]. rewrite Hc. apply IH, Hx.
Qed.

(** *** The module pattern *)

Lemma match_at_module_block (s : text) :
  match_at module_block s =
  run (literal "module") s (fun s1 =>
  run (plus is_space) s1 (fun s2 =>
  run (plus is_word) s2 (fun s3 =>
  module_tail (fun s4 => Some (take (length s - length s4)%nat s)) s3))).
Proof. reflexivity. Qed.

(** A match of the module pattern begins with a header. *)
Lemma match_at_module_header (s g : text) :
  match_at module_block s = Some g -> header_at s = true.
Proof.
  rewrite match_at_module_block, literal_lit_seq. intros H.
  apply run_lit_seq_inv in H as (kw & s1 & -> & Hkw & H).
  unfold plus in H. simpl in H.
  destruct s1 as [|c s1]; [discriminate|].
  destruct (is_space c) eqn:Hc; [|discriminate].
  apply greedy_inv in H as (ws & s2 & -> & Hws & H).
  destruct s2 as [|d s2]; [discriminate|].
  destruct (is_word d) eqn:Hd; [|discriminate].
  change (lower (T "module")) with (T "module") in Hkw.
  assert (Hlen : 6%nat = length kw).
  { rewrite <- lower_length, Hkw. reflexivity. }
  unfold header_at. rewrite lower_app, Hkw, starts_with_app. simpl.
  rewrite drop_app_length' by exact Hlen. rewrite Hc. simpl.
  rewrite lstrip_run; [exact Hd|exact Hws|].
  simpl. apply word_not_space, Hd.
Qed.

Lemma search_skip (pat : pattern) (n : nat) (s g : text) :
  (forall i, (i < n)%nat -> match_at pat (drop i s) = None) ->
  match_at pat (drop n s) = Some g ->
  search pat s = Some g.
Proof.
  revert s. induction n as [|n IH]; intros s Hnone Hg.
  - rewrite drop_0 in Hg. destruct s; simpl; rewrite Hg; reflexivity.
  - destruct s as [|c s].
    + simpl in *. rewrite Hg. reflexivity.
    + pose proof (Hnone 0%nat ltac:(lia)) as H0. simpl in H0.
      simpl. rewrite H0. apply IH.
      * intros i Hi. apply (Hnone (S i)). lia.
      * exact Hg.
Qed.

Lemma run_plus {A} (p : ascii -> bool) (c : ascii) (s : text) (k : text -> option A) :
  run (plus p) (c :: s) k = if p c then greedy p s k else None.
Proof. reflexivity. Qed.

Lemma module_tail_lazy {A} (k : text -> option A) (s : text) :
  module_tail k s = lazy dot s (fun s' => run (lit_seq (T "endmodule")) s' k).
Proof. reflexivity. Qed.

(** The module pattern at the head of a block: the keyword, whitespace,
    the whole identifier, then up to the first [endmodule]. *)
Lemma match_at_module_found (kw ws name mid em post : text) :
  lower kw = T "module" ->
  ws <> [] -> forallb is_space ws = true ->
  name <> [] -> forallb is_word name = true ->
  word_stops mid = true ->
  lower em = T "endmodule" ->
  first_index endmodule_at (mid ++ em ++ post) = Some (length mid) ->
  match_at module_block (kw ++ ws ++ name ++ mid ++ em ++ post) =
    Some (kw ++ ws ++ name ++ mid ++ em).
Proof.
  intros Hkw Hws0 Hws Hname0 Hname Hmid Hem Hfirst.
  rewrite match_at_module_block.
  set (s := kw ++ ws ++ name ++ mid ++ em ++ post).
  set (K := fun s4 : text => Some (take (length s - length s4)%nat s)).
  assert (HK : K post = Some (kw ++ ws ++ name ++ mid ++ em)).
  { unfold K. f_equal.
    replace s with ((kw ++ ws ++ name ++ mid ++ em) ++ post)
      by (unfold s; rewrite <- !app_assoc; reflexivity).
    rewrite length_app, Nat.add_sub. apply take_app_length. }
  unfold s. rewrite literal_lit_seq, run_lit_seq_app by exact Hkw.
  destruct ws as [|c ws]; [contradiction|].
  destruct name as [|n0 name]; [contradiction|].
  destruct mid as [|m0 mid]; [discriminate|].
  simpl in Hws, Hname, Hmid.
  apply andb_prop in Hws as [Hc Hws]. apply andb_prop in Hname as [Hn0 Hname].
  apply negb_true_iff in Hmid.
  rewrite <- app_comm_cons, run_plus, Hc.
  apply greedy_all; [exact Hws|simpl; apply word_not_space, Hn0|].
  rewrite <- app_comm_cons, run_plus, Hn0.
  apply greedy_all; [exact Hname|simpl; exact Hmid|].
  rewrite module_tail_lazy.
  apply first_index_spec in Hfirst as [_ Hnone].
  apply (lazy_first (m0 :: mid) (em ++ post)
           (fun s' => run (lit_seq (T "endmodule")) s' K)).
  - intros i Hi. apply run_lit_seq_fail. apply (Hnone i Hi).
  - rewrite run_lit_seq_app by exact Hem. exact HK.
Qed.

Lemma lstrip_id (a : ascii) (s : text) : is_space a = false -> lstrip (a :: s) = a :: s.
Proof. intros H. simpl. rewrite H. reflexivity. Qed.

Lemma strip_id (s : text) (a b : ascii) (mid_ : text) :
  s = a :: mid_ ++ [b] -> is_space a = false -> is_space b = false -> strip s = s.
Proof.
  intros -> Ha Hb. unfold strip, rstrip. rewrite (lstrip_id a) by exact Ha.
  change (a :: mid_ ++ [b]) with ((a :: mid_) ++ [b]).
  rewrite rev_app_distr.
  change (rev [b] ++ rev (a :: mid_)) with (b :: rev (a :: mid_)).
  rewrite (lstrip_id b) by exact Hb.
  change (b :: rev (a :: mid_)) with ([b] ++ rev (a :: mid_)).
  rewrite rev_app_distr, rev_involutive. reflexivity.
Qed.

(** C7, as the code has it.  Let a response hold no fenced block and the
    text "module " in some letter case, and let its first module header
    (the keyword, whitespace, an identifier) open the block
    [kw ws name mid em], where [name] is the whole identifier and [em] is
    the first [endmodule] after it.  Then [extract_verilog] returns that
    block: from the module keyword to the first [endmodule] that follows,
    both included, whatever comes after. *)
Theorem extract_verilog_module_block (pre kw ws name mid em post : text) :
  let block := kw ++ ws ++ name ++ mid ++ em in
  let response := pre ++ block ++ post in
  first_match markdown_patterns response = None ->
  contains (T "module ") (lower response) = true ->
  lower kw = T "module" ->
  ws <> [] -> forallb is_space ws = true ->
  name <> [] -> forallb is_word name = true ->
  word_stops mid = true ->
  lower em = T "endmodule" ->
  first_index header_at response = Some (length pre) ->
  first_index endmodule_at (mid ++ em ++ post) = Some (length mid) ->
  extract_verilog response = block.
Proof.
  intros block response Hfence Hguard Hkw Hws0 Hws Hname0 Hname Hmid Hem Hhead Hend.
  assert (Hfound : search module_block response = Some block).
  { apply first_index_spec in Hhead as [_ Hnone].
    apply (search_skip module_block (length pre)).
    - intros i Hi. destruct (match_at module_block (drop i response)) as [g|] eqn:E;
        [|reflexivity].
      apply match_at_module_header in E. rewrite (Hnone i Hi) in E. discriminate.
    - unfold response, block. rewrite drop_app_length, <- !app_assoc.
      apply match_at_module_found; assumption. }
  unfold extract_verilog.
  destruct response as [|r0 response'] eqn:Eresp; [discriminate|].
  rewrite Hfence, Hguard, Hfound.
  destruct kw as [|k0 kw]; [discriminate|].
  destruct (rev em) as [|e9 em'] eqn:Erev.
  { apply (f_equal (@rev ascii)) in Erev. rewrite rev_involutive in Erev.
    subst em. discriminate. }
  apply (f_equal (@rev ascii)) in Erev. rewrite rev_involutive in Erev. simpl in Erev.
  apply (strip_id _ k0 e9 (kw ++ ws ++ name ++ mid ++ rev em')).
  - unfold block. rewrite Erev, <- !app_assoc. reflexivity.
  - injection Hkw as Hk0 _. apply (lower_not_space _ _ Hk0). reflexivity.
  - rewrite Erev, lower_app in Hem.
    apply (f_equal (@rev ascii)) in Hem. rewrite rev_app_distr in Hem. simpl in Hem.
    injection Hem as He9 _. apply (lower_not_space _ _ He9). reflexivity.
Qed.

Lemma extract_verilog_module_block_witness :
  extract_verilog
    (T "Here is the design you asked for: module top(a,b); assign b = a; endmodule Let me know if it helps.")
  = T "module top(a,b); assign b = a; endmodule".
Proof.
  apply (extract_verilog_module_block
           (T "Here is the design you asked for: ")
           (T "module") (T " ") (T "top") (T "(a,b); assign b = a; ")
           (T "endmodule") (T " Let me know if it helps."));
    first [discriminate | vm_compute; reflexivity].
Defined.

(** C7 as stated fails: the match is not greedy.  Of two blocks in one
    text, the first alone is returned, not the span to the last
    [endmodule]. *)
Lemma extract_verilog_stops_at_first_endmodule :
  let response := T "module a(); endmodule module b(); endmodule" in
  first_match markdown_patterns response = None /\
  contains (T "module") response = true /\
  extract_verilog response = T "module a(); endmodule" /\
  extract_verilog response <> response.
Proof.
  repeat split; try (vm_compute; reflexivity). vm_compute. discriminate.
Qed.

(** A text without a backquote has no fenced block. *)
Lemma first_match_no_backquote (s : text) :
  ~ In "`"%char s -> first_match markdown_patterns s = None.
Proof.
  assert (Hhead : forall (A : Type) (r : regex) (t : text) (k : text -> option A),
             ~ In "`"%char t -> run (Seq (literal "```") r) t k = None).
  { intros A r t k Hno. change (run (Seq (literal "```") r) t k)
      with (run (lit_seq (T "```")) t (fun s' => run r s' k)).
    apply run_lit_seq_fail. destruct t as [|x t]; [reflexivity|].
    change (starts_with (lower (T "```")) (lower (x :: t)))
      with (Ascii.eqb "`"%char (lower_char x) && starts_with (T "``") (lower t)).
    destruct (Ascii.eqb_spec "`"%char (lower_char x)) as [E|E]; [|reflexivity].
    exfalso. apply Hno. left.
    revert E. destruct x as [[] [] [] [] [] [] [] []]; vm_compute; congruence. }
  assert (Hsearch : forall pat r, before pat = Seq (literal "```") r ->
             forall t, ~ In "`"%char t -> search pat t = None).
  { intros pat r Hpat. induction t as [|x t IH]; intros Hno; simpl;
      unfold match_at; rewrite Hpat, Hhead by exact Hno; [reflexivity|].
    apply IH. intros Hin. apply Hno. right. exact Hin. }
  intros Hno. simpl.
  rewrite (Hsearch fence_tagged _ eq_refl s Hno), (Hsearch fence_plain _ eq_refl s Hno).
  reflexivity.
Qed.

(** * Further properties of the code *)

(** ** Control loop: budget and termination *)

Lemma steps_END (config : ReActConfig) (agents : Agents) (n : nat) (state : VerilogState) :
  steps config agents n (END, state) = (END, state).
Proof. induction n as [|n IH]; simpl; [reflexivity|exact IH]. Qed.

Lemma steps_add (config : ReActConfig) (agents : Agents) (n m : nat)
    (at_ : Node * VerilogState) :
  steps config agents (n + m) at_ = steps config agents m (steps config agents n at_).
Proof.
  revert at_. induction n as [|n IH]; intros at_; simpl; [reflexivity|apply IH].
Qed.

Lemma should_stop_exhausted (state : VerilogState) :
  max_invocations state <= agent_invocations state ->
  should_stop {| total_budget := max_invocations state |} state =
    (true, "Budget exhausted"%string).
Proof.
  intros H. unfold should_stop. simpl.
  destruct (Z.geb_spec (agent_invocations state) (max_invocations state)); [reflexivity|lia].
Qed.

Lemma should_stop_continue_budget (state : VerilogState) :
  should_stop {| total_budget := max_invocations state |} state =
    (false, "Continue"%string) ->
  agent_invocations state < max_invocations state.
Proof.
  unfold should_stop. simpl.
  destruct (Z.geb_spec (agent_invocations state) (max_invocations state)); [discriminate|lia].
Qed.

(** The planner step in its two cases. *)
Lemma planner_node_cases (agents : Agents) (state : VerilogState) :
  (fst (should_stop {| total_budget := max_invocations state |} state) = true /\
   planner_node agents state = stopped state) \/
  (should_stop {| total_budget := max_invocations state |} state =
     (false, "Continue"%string) /\
   agent_invocations (planner_node agents state) = agent_invocations state + 1 /\
   planner_calls (planner_node agents state) = planner_calls state + 1 /\
   specialist_calls (planner_node agents state) = specialist_calls state /\
   max_invocations (planner_node agents state) = max_invocations state /\
   completed (planner_node agents state) = completed state /\
   next_action (planner_node agents state) =
     default (JStr "complete") (decide_next_action agents state !! "next_action"%string)).
Proof.
  destruct (should_stop {| total_budget := max_invocations state |} state)
    as [[|] reason] eqn:E.
  - left. split; [reflexivity|]. unfold planner_node. rewrite E. reflexivity.
  - right.
    assert (Hr : reason = "Continue"%string).
    { revert E. unfold should_stop.
      repeat match goal with |- context [if ?b then _ else _] => destruct b end;
        congruence. }
    subst reason. split; [reflexivity|].
    unfold planner_node. rewrite E. simpl. repeat split.
Qed.

Lemma is_action_true (label : string) (v : jvalue) :
  is_action label v = true <-> v = JStr label.
Proof.
  destruct v; simpl; try (split; [discriminate|congruence]).
  rewrite String.eqb_eq. split; congruence.
Qed.

Lemma route_continues (state : VerilogState) :
  route_from_planner state <> END ->
  is_specialist (route_from_planner state) = true /\
  completed state = false /\
  agent_invocations state < max_invocations state.
Proof.
  unfold route_from_planner.
  destruct (completed state); simpl; [congruence|].
  destruct (is_action "complete" (next_action state)); [congruence|].
  destruct (Z.geb_spec (agent_invocations state) (max_invocations state)) as [Hge|Hlt];
    [congruence|].
  repeat match goal with |- context [if ?b then _ else _] => destruct b end;
    intros Hne; try congruence; repeat split; lia.
Qed.

(** X1: the routing guard.  The planner's edge leads to [END] or to a
    specialist, and to a specialist only when the session is not completed,
    an invocation is left and [next_action] is that specialist's label. *)
Theorem route_from_planner_guard (state : VerilogState) (node : Node) :
  route_from_planner state = node ->
  node <> planner /\
  (node <> END ->
   is_specialist node = true /\
   completed state = false /\
   agent_invocations state < max_invocations state /\
   next_action state = JStr (label_of node)).
Proof.
  unfold route_from_planner. intros <-.
  destruct (completed state); simpl; [split; [discriminate|congruence]|].
  destruct (is_action "complete" (next_action state)); [split; [discriminate|congruence]|].
  destruct (Z.geb_spec (agent_invocations state) (max_invocations state));
    [split; [discriminate|congruence]|].
  destruct (is_action "code_gen" (next_action state)) eqn:E1;
    [apply is_action_true in E1; repeat split; try discriminate; try lia; exact E1|].
  destruct (is_action "validator" (next_action state)) eqn:E2;
    [apply is_action_true in E2; repeat split; try discriminate; try lia; exact E2|].
  destruct (is_action "tester" (next_action state)) eqn:E3;
    [apply is_action_true in E3; repeat split; try discriminate; try lia; exact E3|].
  destruct (is_action "analyzer" (next_action state)) eqn:E4;
    [apply is_action_true in E4; repeat split; try discriminate; try lia; exact E4|].
  split; [discriminate|congruence].
Qed.

Lemma route_from_planner_guard_witness :
  let state := planner_node (fixed_agents "tester" true 0 false) start50 in
  completed state = false /\ agent_invocations state < max_invocations state.
Proof.
  intros state.
  destruct (route_from_planner_guard state tester) as [_ H].
  - vm_compute. reflexivity.
  - destruct H as (_ & Hc & Hb & _); [discriminate|]. split; assumption.
Defined.

Lemma specialist_step (config : ReActConfig) (agents : Agents)
    (node : Node) (state : VerilogState) :
  is_specialist node = true ->
  fst (step config agents (node, state)) = planner /\
  agent_invocations (snd (step config agents (node, state))) = agent_invocations state + 1 /\
  specialist_calls (snd (step config agents (node, state))) = specialist_calls state + 1 /\
  planner_calls (snd (step config agents (node, state))) = planner_calls state /\
  max_invocations (snd (step config agents (node, state))) = max_invocations state.
Proof.
  destruct node; simpl; intros H; try discriminate; repeat split.
Qed.

Lemma step_max_invocations (config : ReActConfig) (agents : Agents)
    (at_ : Node * VerilogState) :
  max_invocations (snd (step config agents at_)) = max_invocations (snd at_).
Proof.
  destruct at_ as [node state]. destruct node; try reflexivity. simpl.
  destruct (planner_node_cases agents state) as [[_ ->]|(_ & _ & _ & _ & H & _)];
    [reflexivity|exact H].
Qed.

Lemma step_invocations (config : ReActConfig) (agents : Agents)
    (at_ : Node * VerilogState) :
  agent_invocations (snd at_) <= agent_invocations (snd (step config agents at_)).
Proof.
  destruct at_ as [node state]. destruct node; simpl; try lia.
  destruct (planner_node_cases agents state) as [[_ ->]|(_ & H & _)];
    [simpl; lia|lia].
Qed.

Lemma node_eq_END (node : Node) : node = END \/ node <> END.
Proof. destruct node; first [left; reflexivity|right; discriminate]. Qed.

(** One planner step: the graph ends, or a specialist is entered with an
    invocation to spare. *)
Lemma planner_step (config : ReActConfig) (agents : Agents) (state : VerilogState) :
  let at1 := step config agents (planner, state) in
  fst at1 = END \/
  (is_specialist (fst at1) = true /\
   agent_invocations state < max_invocations state /\
   agent_invocations (snd at1) = agent_invocations state + 1 /\
   agent_invocations (snd at1) < max_invocations state).
Proof.
  simpl.
  destruct (planner_node_cases agents state) as [[Hs _]|(Hc & Hi & _ & _ & Hm & _)].
  - left. apply planner_node_stop, Hs.
  - destruct (node_eq_END (route_from_planner (planner_node agents state))) as [E|E];
      [left; exact E|right].
    destruct (route_continues _ E) as (Hsp & _ & Hb).
    apply should_stop_continue_budget in Hc.
    repeat split; try assumption; lia.
Qed.

Lemma planner_run_ends (config : ReActConfig) (agents : Agents) (m : nat) :
  forall state : VerilogState,
    (Z.to_nat (max_invocations state - agent_invocations state) <= m)%nat ->
    fst (steps config agents (S m) (planner, state)) = END.
Proof.
  induction m as [m IH] using lt_wf_ind. intros state Hm.
  change (steps config agents (S m) (planner, state))
    with (steps config agents m (step config agents (planner, state))).
  destruct (planner_step config agents state) as [Hend|(Hsp & Hlt & Hinv & Hlt1)].
  - destruct (step config agents (planner, state)) as [node1 state1].
    simpl in Hend. subst node1. rewrite steps_END. reflexivity.
  - destruct (step config agents (planner, state)) as [node1 state1] eqn:E1.
    simpl in Hsp, Hinv, Hlt1.
    assert (Hmax1 : max_invocations state1 = max_invocations state).
    { pose proof (step_max_invocations config agents (planner, state)) as H.
      rewrite E1 in H. exact H. }
    destruct m as [|[|k]]; [lia|lia|].
    change (steps config agents (S (S k)) (node1, state1))
      with (steps config agents (S k) (step config agents (node1, state1))).
    destruct (specialist_step config agents node1 state1 Hsp)
      as (Hp & Hinv2 & _ & _ & Hmax2).
    destruct (step config agents (node1, state1)) as [node2 state2].
    simpl in Hp, Hinv2, Hmax2. subst node2.
    apply IH; [lia|]. rewrite Hmax2, Hinv2, Hmax1, Hinv. lia.
Qed.

(** X2: the loop ends.  Whatever the agents answer, a session is at [END]
    after at most one super-step more than the invocations that were left
    when the planner was entered, and stays there. *)
Theorem session_terminates (config : ReActConfig) (agents : Agents)
    (state : VerilogState) (n : nat) :
  (Z.to_nat (max_invocations state - agent_invocations state) + 1 <= n)%nat ->
  fst (steps config agents n (planner, state)) = END.
Proof.
  intros Hn.
  set (m := Z.to_nat (max_invocations state - agent_invocations state)) in *.
  replace n with (S m + (n - S m))%nat by lia.
  rewrite steps_add.
  pose proof (planner_run_ends config agents m state (Nat.le_refl _)) as Hend.
  destruct (steps config agents (S m) (planner, state)) as [node1 state1].
  simpl in Hend. subst node1. rewrite steps_END. reflexivity.
Qed.

Lemma session_terminates_witness :
  fst (steps default_config failing_agents 11 (planner, start10)) = END.
Proof.
  apply session_terminates. vm_compute. lia.
Defined.

Lemma step_within_budget (config : ReActConfig) (agents : Agents)
    (at_ : Node * VerilogState) :
  within_budget at_ -> within_budget (step config agents at_).
Proof.
  destruct at_ as [node state]. unfold within_budget.
  destruct node; simpl; try lia.
  intros Hle.
  destruct (planner_node_cases agents state) as [[Hs Heq]|(Hc & Hi & _ & _ & Hm & _)].
  - destruct (planner_node_stop agents state Hs) as (_ & _ & ->). simpl.
    rewrite Heq. simpl. exact Hle.
  - destruct (node_eq_END (route_from_planner (planner_node agents state))) as [E|E].
    + rewrite E. simpl. apply should_stop_continue_budget in Hc. lia.
    + destruct (route_continues _ E) as (-> & _ & Hb). exact Hb.
Qed.

(** X3: the budget is never overspent.  From the planner, with the count at
    or below the cap, the count of invocations never goes down, never
    passes the cap, and the cap itself is never changed. *)
Theorem budget_never_overspent (config : ReActConfig) (agents : Agents)
    (n : nat) (state : VerilogState) :
  agent_invocations state <= max_invocations state ->
  let state' := snd (steps config agents n (planner, state)) in
  agent_invocations state <= agent_invocations state' /\
  agent_invocations state' <= max_invocations state /\
  max_invocations state' = max_invocations state.
Proof.
  intros Hle.
  assert (Hgen : forall n at_, within_budget at_ ->
            within_budget (steps config agents n at_) /\
            agent_invocations (snd at_) <=
              agent_invocations (snd (steps config agents n at_)) /\
            max_invocations (snd (steps config agents n at_)) = max_invocations (snd at_)).
  { clear. induction n as [|n IH]; intros at_ Hw.
    - simpl. repeat split; [exact Hw|lia].
    - destruct (IH (step config agents at_) (step_within_budget _ _ _ Hw))
        as (H1 & H2 & H3).
      pose proof (step_invocations config agents at_).
      pose proof (step_max_invocations config agents at_).
      simpl. repeat split; [exact H1|lia|congruence]. }
  destruct (Hgen n (planner, state) Hle) as (Hw & Hmono & Hmax).
  simpl in Hmono, Hmax. cbv zeta. repeat split; try assumption.
  rewrite <- Hmax. unfold within_budget in Hw.
  destruct (is_specialist _); lia.
Qed.

Lemma budget_never_overspent_witness :
  agent_invocations (snd (steps default_config failing_agents 11 (planner, start10))) <= 10.
Proof.
  apply (budget_never_overspent default_config failing_agents 11 start10).
  vm_compute. discriminate.
Defined.

(** ** Control loop: bookkeeping invariants *)

(** What no planner step touches. *)
Lemma planner_node_frame (agents : Agents) (state : VerilogState) :
  let state' := planner_node agents state in
  current_code state' = current_code state /\
  code_history state' = code_history state /\
  best_code state' = best_code state /\
  code_refinements state' = code_refinements state /\
  success state' = success state /\
  (completed state = true -> completed state' = true).
Proof.
  unfold planner_node.
  destruct (should_stop _ state) as [[|] reason]; simpl; repeat split; auto.
Qed.

Lemma steps_preserve (config : ReActConfig) (agents : Agents)
    (P : VerilogState -> Prop) :
  (forall node state, P state -> P (snd (step config agents (node, state)))) ->
  forall n at_, P (snd at_) -> P (snd (steps config agents n at_)).
Proof.
  intros Hstep. induction n as [|n IH]; intros [node state] HP; [exact HP|].
  simpl. apply IH. apply Hstep. exact HP.
Qed.

(** X4: invocation accounting.  In a fresh session, and then after every
    step, the invocation count is the sum of the planner calls and the
    specialist calls. *)
Theorem invocations_accounted (config : ReActConfig) (agents : Agents) :
  (forall task context target cap now,
     accounted (create_initial_state task context target cap now)) /\
  (forall (n : nat) (at_ : Node * VerilogState),
     accounted (snd at_) -> accounted (snd (steps config agents n at_))).
Proof.
  split; [reflexivity|].
  apply steps_preserve. unfold accounted. intros node state H.
  destruct node; simpl; try lia.
  destruct (planner_node_cases agents state) as [[_ ->]|(_ & H1 & H2 & H3 & _)];
    [simpl; exact H|lia].
Qed.

Lemma invocations_accounted_witness : accounted after50.
Proof.
  pose proof (invocations_accounted default_config failing_agents) as [_ H].
  apply (H 10%nat (planner, start50)). vm_compute. reflexivity.
Defined.

(** X5: the history of candidates.  In a fresh session, and then after
    every step, [code_refinements] is the number of candidates in
    [code_history] and [current_code] is the last of them. *)
Theorem code_history_kept (config : ReActConfig) (agents : Agents) :
  (forall task context target cap now,
     history_kept (create_initial_state task context target cap now)) /\
  (forall (n : nat) (at_ : Node * VerilogState),
     history_kept (snd at_) -> history_kept (snd (steps config agents n at_))).
Proof.
  split; [split; reflexivity|].
  apply steps_preserve. unfold history_kept. intros node state [Hn Hl].
  destruct node; simpl; try (split; assumption).
  - destruct (planner_node_frame agents state) as (-> & -> & _ & -> & _).
    split; assumption.
  - destruct (truthy (g_success (generate_code agents state))); [|split; assumption].
    rewrite length_app, last_snoc. simpl. split; [lia|reflexivity].
Qed.

Lemma code_history_kept_witness :
  history_kept (code_gen_node (fixed_agents "code_gen" true 0 false) start50).
Proof.
  pose proof (code_history_kept default_config (fixed_agents "code_gen" true 0 false))
    as [_ H].
  apply (H 1%nat (code_gen, start50)). split; vm_compute; reflexivity.
Defined.

Lemma code_gen_best_is_longest (agents : Agents) (state : VerilogState) :
  best_is_longest state -> best_is_longest (code_gen_node agents state).
Proof.
  unfold best_is_longest, code_gen_node. simpl.
  set (c := g_code (generate_code agents state)).
  destruct (truthy (g_success (generate_code agents state))); simpl; [|auto].
  destruct (best_code state) as [best|] eqn:Eb; simpl.
  - intros [Hin Hmax].
    destruct (String.eqb_spec best "") as [->|Hne]; simpl.
    + split; [apply in_or_app; right; left; reflexivity|].
      intros x Hx. apply in_app_or in Hx as [Hx|[<-|[]]]; [|lia].
      specialize (Hmax x Hx). simpl in *. lia.
    + destruct (Z.ltb_spec (Z.of_nat (String.length best)) (Z.of_nat (String.length c)))
        as [Hlt|Hge].
      * split; [apply in_or_app; right; left; reflexivity|].
        intros x Hx. apply in_app_or in Hx as [Hx|[<-|[]]]; [|lia].
        specialize (Hmax x Hx). simpl in *. lia.
      * split; [apply in_or_app; left; exact Hin|].
        intros x Hx. apply in_app_or in Hx as [Hx|[<-|[]]]; [auto|simpl; lia].
  - intros ->. simpl. split; [left; reflexivity|].
    intros x [<-|[]]. lia.
Qed.

(** X6: the best candidate.  In a fresh session, and then after every
    step, [best_code] is unset exactly while the history is empty, and
    otherwise is an entry of the history that no entry exceeds in length. *)
Theorem best_code_is_longest (config : ReActConfig) (agents : Agents) :
  (forall task context target cap now,
     best_is_longest (create_initial_state task context target cap now)) /\
  (forall (n : nat) (at_ : Node * VerilogState),
     best_is_longest (snd at_) -> best_is_longest (snd (steps config agents n at_))).
Proof.
  split; [reflexivity|].
  apply steps_preserve. intros node state H.
  destruct node; simpl; try exact H.
  - unfold best_is_longest in *.
    destruct (planner_node_frame agents state) as (_ & -> & -> & _). exact H.
  - apply code_gen_best_is_longest, H.
Qed.

Lemma best_code_is_longest_witness :
  best_is_longest (code_gen_node (fixed_agents "code_gen" true 0 false) start50).
Proof.
  pose proof (best_code_is_longest default_config (fixed_agents "code_gen" true 0 false))
    as [_ H].
  apply (H 1%nat (code_gen, start50)). vm_compute. reflexivity.
Defined.

(** X7: the status flags only go up.  Along any steps, [success] once true
    stays true and [completed] once true stays true. *)
Theorem status_flags_monotone (config : ReActConfig) (agents : Agents)
    (n : nat) (at_ : Node * VerilogState) :
  (success (snd at_) = true -> success (snd (steps config agents n at_)) = true) /\
  (completed (snd at_) = true -> completed (snd (steps config agents n at_)) = true).
Proof.
  split; intros H.
  - revert n at_ H.
    apply (steps_preserve config agents (fun s => success s = true)).
    intros node state H. destruct node; simpl; try exact H.
    + destruct (planner_node_frame agents state) as (_ & _ & _ & _ & -> & _). exact H.
    + rewrite H. destruct (truthy _); reflexivity.
  - revert n at_ H.
    apply (steps_preserve config agents (fun s => completed s = true)).
    intros node state H. destruct node; simpl; try exact H.
    + apply planner_node_frame, H.
    + rewrite H. destruct (_ && _); reflexivity.
Qed.

Lemma status_flags_monotone_witness :
  let agents := fixed_agents "tester" true 0 true in
  let at1 := (planner, tester_node default_config agents start50) in
  completed (snd (steps default_config agents 1 at1)) = true.
Proof.
  intros agents at1.
  apply (status_flags_monotone default_config agents 1 at1). vm_compute. reflexivity.
Defined.

(** X8: the flag of the tier reached.  In a fresh session, and then after
    every step, either no tier is reached or the flag of [current_tier]
    is set. *)
Theorem current_tier_flagged (config : ReActConfig) (agents : Agents) :
  (forall task context target cap now,
     tier_flagged (create_initial_state task context target cap now)) /\
  (forall (n : nat) (at_ : Node * VerilogState),
     tier_flagged (snd at_) -> tier_flagged (snd (steps config agents n at_))).
Proof.
  split; [left; reflexivity|].
  apply steps_preserve. unfold tier_flagged. intros node state H.
  destruct node; simpl; try exact H.
  - destruct (planner_node_tiers agents state) as (-> & -> & _). exact H.
  - destruct (current_tier state <? _); [right; apply lookup_insert_eq|exact H].
  - destruct (current_tier state <? _); [right; apply lookup_insert_eq|exact H].
Qed.

Lemma current_tier_flagged_witness :
  tier_flagged (validator_node (fixed_agents "validator" true 2 false) start50).
Proof.
  pose proof (current_tier_flagged default_config (fixed_agents "validator" true 2 false))
    as [_ H].
  apply (H 1%nat (validator, start50)). left. vm_compute. reflexivity.
Defined.

(** ** Budget manager: zones, strategy and the invocation check *)

(** X9: zones only advance.  As more invocations are used the zone moves
    from GREEN towards RED and never back. *)
Theorem get_budget_zone_monotone (self : BudgetManager) (used used' : Z) :
  used <= used' ->
  zone_rank (get_budget_zone self used) <= zone_rank (get_budget_zone self used').
Proof.
  intros H. unfold get_budget_zone. cbv zeta.
  repeat match goal with
         | |- context [?a >=? ?b] => destruct (Z.geb_spec a b)
         end; first [lia | vm_compute; discriminate].
Qed.

Lemma get_budget_zone_monotone_witness :
  zone_rank (get_budget_zone {| total_budget := 50 |} 10) <=
  zone_rank (get_budget_zone {| total_budget := 50 |} 35).
Proof. apply get_budget_zone_monotone. lia. Defined.

(** X10: the strategy table.  Each recommendation is given exactly on its
    range of remaining invocations and tiers: explore with 40 or more
    left, testing or quality with 20 to 39 left as the tier is at least 2
    or not, optimize or finish with 10 to 19 left as the tier is at least 3
    or not, wrap up with fewer than 10 left. *)
Theorem get_strategy_recommendation_table (self : BudgetManager) (used tier : Z) :
  let remaining := total_budget self - used in
  let strategy := get_strategy_recommendation self used tier in
  (strategy = "explore_alternatives"%string <-> 40 <= remaining) /\
  (strategy = "focus_on_testing"%string <-> 20 <= remaining < 40 /\ 2 <= tier) /\
  (strategy = "focus_on_quality"%string <-> 20 <= remaining < 40 /\ tier < 2) /\
  (strategy = "optimize"%string <-> 10 <= remaining < 20 /\ 3 <= tier) /\
  (strategy = "finish_strong"%string <-> 10 <= remaining < 20 /\ tier < 3) /\
  (strategy = "wrap_up"%string <-> remaining < 10).
Proof.
  unfold get_strategy_recommendation, get_budget_zone. cbv zeta.
  repeat match goal with
         | |- context [?a >=? ?b] => destruct (Z.geb_spec a b)
         end; simpl;
  repeat split; intros; try discriminate; try reflexivity; try lia.
Qed.

(** X11: the invocation check.  [can_invoke] allows a call exactly when the
    budget is not used up and either the agent is under its soft limit (10
    for an agent without an allocation) or more than 5 invocations are
    left. *)
Theorem can_invoke_allowed (self : BudgetManager) (used : Z) (agent_type : string)
    (phase_used : gmap string Z) :
  let agent_used := default 0 (phase_used !! agent_type) in
  let agent_limit := default 10 (phase_allocations !! agent_type) in
  fst (can_invoke self used agent_type phase_used) = true <->
  used < total_budget self /\
  (agent_used < agent_limit \/ 5 < total_budget self - used).
Proof.
  unfold can_invoke. cbv zeta.
  destruct (Z.geb_spec used (total_budget self)); simpl; [split; [discriminate|lia]|].
  destruct (Z.geb_spec (default 0 (phase_used !! agent_type))
              (default 10 (phase_allocations !! agent_type))); simpl.
  - destruct (Z.gtb_spec (total_budget self - used) 5); simpl;
      (split; [intros; try discriminate; lia|intros; try reflexivity; lia]).
  - split; [intros; lia|reflexivity].
Qed.

(** ** Lint runner *)

Lemma split_cons (sep : ascii) (s : text) :
  exists piece rest, split sep s = piece :: rest.
Proof.
  induction s as [|c s (piece & rest & IH)]; simpl; [eauto|].
  destruct (Ascii.eqb c sep); [eauto|]. rewrite IH. eauto.
Qed.

Lemma join_text_cons (sep p : text) (q : text) (rest : list text) :
  join_text sep (p :: q :: rest) = p ++ sep ++ join_text sep (q :: rest).
Proof. reflexivity. Qed.

Lemma join_split (sep : ascii) (s : text) : join_text [sep] (split sep s) = s.
Proof.
  induction s as [|c s IH]; simpl; [reflexivity|].
  destruct (split_cons sep s) as (piece & rest & E). rewrite E in *.
  destruct (Ascii.eqb_spec c sep) as [->|Hne].
  - rewrite join_text_cons, IH. reflexivity.
  - destruct rest as [|q rest].
    + simpl in *. rewrite IH. reflexivity.
    + rewrite <- IH. reflexivity.
Qed.

Lemma split_pieces (sep : ascii) (s : text) :
  Forall (fun piece => ~ In sep piece) (split sep s).
Proof.
  induction s as [|c s IH]; simpl.
  - constructor; [intros []|constructor].
  - destruct (Ascii.eqb_spec c sep) as [->|Hne].
    + constructor; [intros []|exact IH].
    + destruct (split sep s) as [|piece rest]; [constructor; [|constructor]|].
      * intros [H|[]]. congruence.
      * inversion IH as [|? ? Hp Hr]; subst. constructor; [|exact Hr].
        intros [H|H]; [congruence|exact (Hp H)].
Qed.

Lemma split_no_sep (sep : ascii) (p : text) : ~ In sep p -> split sep p = [p].
Proof.
  induction p as [|c p IH]; intros H; simpl; [reflexivity|].
  destruct (Ascii.eqb_spec c sep) as [->|Hne]; [exfalso; apply H; left; reflexivity|].
  rewrite IH; [reflexivity|]. intros Hin. apply H. right. exact Hin.
Qed.

Lemma split_app_sep (sep : ascii) (p s : text) :
  ~ In sep p -> split sep (p ++ sep :: s) = p :: split sep s.
Proof.
  induction p as [|c p IH]; intros H; simpl.
  - rewrite Ascii.eqb_refl. reflexivity.
  - destruct (Ascii.eqb_spec c sep) as [->|Hne]; [exfalso; apply H; left; reflexivity|].
    rewrite IH; [reflexivity|]. intros Hin. apply H. right. exact Hin.
Qed.

Lemma split_join (sep : ascii) (pieces : list text) :
  pieces <> [] -> Forall (fun piece => ~ In sep piece) pieces ->
  split sep (join_text [sep] pieces) = pieces.
Proof.
  induction pieces as [|p rest IH]; intros Hne Hall; [congruence|].
  inversion Hall as [|? ? Hp Hr]; subst.
  destruct rest as [|q rest].
  - simpl. apply split_no_sep, Hp.
  - rewrite join_text_cons.
    change ([sep] ++ join_text [sep] (q :: rest)) with (sep :: join_text [sep] (q :: rest)).
    rewrite split_app_sep by exact Hp.
    f_equal. apply IH; [discriminate|exact Hr].
Qed.

Lemma join_take_prefix (sep : text) (n : nat) (pieces : list text) :
  exists rest, join_text sep pieces = join_text sep (take n pieces) ++ rest.
Proof.
  revert n. induction pieces as [|p ps IH]; intros n.
  - exists []. destruct n; reflexivity.
  - destruct n as [|n]; [simpl take; eexists; reflexivity|].
    destruct ps as [|q ps]; [exists []; destruct n; simpl; rewrite app_nil_r; reflexivity|].
    destruct (IH n) as [rest Hrest].
    destruct n as [|n].
    + simpl take. rewrite join_text_cons. exists (sep ++ join_text sep (q :: ps)).
      reflexivity.
    + change (take (S (S n)) (p :: q :: ps)) with (p :: q :: take n ps).
      change (take (S n) (q :: ps)) with (q :: take n ps) in Hrest.
      rewrite !join_text_cons, Hrest. exists rest. rewrite <- !app_assoc. reflexivity.
Qed.

(** X12: truncation of diagnostics.  For [n >= 1], the first [n] lines of an
    output are exactly its first [n] lines: at most [n] of them, a prefix
    of the output, and the whole output when it has no more than [n]
    lines. *)
Theorem first_lines_truncates (n : nat) (output : text) :
  (1 <= n)%nat ->
  let kept := Lint.first_lines n output in
  split Lint.newline kept = take n (split Lint.newline output) /\
  (length (split Lint.newline kept) <= n)%nat /\
  (exists rest, output = kept ++ rest) /\
  ((length (split Lint.newline output) <= n)%nat -> kept = output).
Proof.
  intros Hn kept. unfold kept, Lint.first_lines.
  assert (Hsplit : split Lint.newline
                     (join_text [Lint.newline] (take n (split Lint.newline output))) =
                   take n (split Lint.newline output)).
  { apply split_join.
    - destruct (split_cons Lint.newline output) as (p & r & ->).
      destruct n; [lia|discriminate].
    - apply Forall_take, split_pieces. }
  rewrite Hsplit. repeat split.
  - rewrite length_take. lia.
  - destruct (join_take_prefix [Lint.newline] n (split Lint.newline output)) as [rest H].
    exists rest. rewrite <- H, join_split. reflexivity.
  - intros Hle. rewrite take_ge by exact Hle. apply join_split.
Qed.

Lemma first_lines_truncates_witness :
  split Lint.newline (Lint.first_lines 2 (T "a
b
c")) = [T "a"; T "b"].
Proof.
  apply (first_lines_truncates 2 (T "a
b
c")). lia.
Defined.

Lemma nonblank_false (s : text) : nonblank s = false <-> s = [].
Proof. destruct s; simpl; split; congruence. Qed.

(** X13: a lint pass.  [LintRunner.run] reports success only with empty
    diagnostics, only on a non-empty list of files, and only when
    Verilator exited with code 0 or Icarus exited with code 0 without the
    word "error" (in any letter case) in its output. *)
Theorem lint_run_pass (self : Lint.LintRunner) (verilator icarus : Lint.tool)
    (rtl_files : list string) :
  fst (Lint.run self verilator icarus rtl_files) = true ->
  snd (Lint.run self verilator icarus rtl_files) = [] /\
  rtl_files <> [] /\
  ((exists stdout stderr, verilator rtl_files = Lint.Completed 0 stdout stderr) \/
   (exists stdout stderr,
      icarus rtl_files = Lint.Completed 0 stdout stderr /\
      ~ occurs (T "error") (lower (stderr ++ stdout)))).
Proof.
  unfold Lint.run. destruct rtl_files as [|f files]; [discriminate|].
  set (fs := f :: files).
  destruct (Lint._run_verilator self verilator fs) as [ok errs] eqn:Ev.
  unfold Lint._run_verilator in Ev.
  destruct ok; simpl.
  - intros _. revert Ev.
    destruct (verilator fs) as [| |e|rc out err]; try (intros [=]; fail).
    cbv zeta. destruct (Z.eqb_spec rc 0) as [->|Hrc]; [|intros [=]].
    intros [= <-]. repeat split; [discriminate|left; eauto].
  - destruct (nonblank errs); [intros [=]|].
    unfold Lint._run_icarus.
    destruct (icarus fs) as [| |e|rc out err]; cbv zeta;
      try (intros H; simpl in H; discriminate H).
    destruct (Z.eqb_spec rc 0) as [->|Hrc];
      [|intros H; simpl in H; discriminate H].
    destruct (contains (T "error") (lower (err ++ out))) eqn:Ec;
      [intros H; simpl in H; discriminate H|].
    intros _. repeat split; [discriminate|right].
    exists out, err. split; [reflexivity|apply contains_false; exact Ec].
Qed.

Lemma lint_run_pass_witness :
  snd (Lint.run {| Lint.timeout := 30 |}
         (fun _ => Lint.NotFound)
         (fun _ => Lint.Completed 0 (T "top.sv: 0 warnings") [])
         ["/code/rtl/top.sv"%string]) = [].
Proof.
  apply lint_run_pass. vm_compute. reflexivity.
Defined.

(** X14: the lint fallback.  On a non-empty list of files Icarus decides
    whenever Verilator is missing, raises, or fails without any output;
    and with both tools missing the diagnostic names both. *)
Theorem lint_run_fallback (self : Lint.LintRunner) (verilator icarus : Lint.tool)
    (rtl_files : list string) :
  rtl_files <> [] ->
  (verilator rtl_files = Lint.NotFound \/
   (exists e, verilator rtl_files = Lint.Raised e) \/
   (exists returncode, returncode <> 0 /\
      verilator rtl_files = Lint.Completed returncode [] []) ->
   Lint.run self verilator icarus rtl_files = Lint._run_icarus self icarus rtl_files) /\
  (verilator rtl_files = Lint.NotFound -> icarus rtl_files = Lint.NotFound ->
   Lint.run self verilator icarus rtl_files =
     (false, T "No suitable lint tool available (tried Verilator and Icarus)")).
Proof.
  intros Hne. destruct rtl_files as [|f files]; [congruence|].
  unfold Lint.run, Lint._run_verilator. split.
  - intros [H|[[e H]|(rc & Hrc & H)]]; rewrite H; simpl; try reflexivity.
    destruct (Z.eqb_spec rc 0); [contradiction|]. reflexivity.
  - intros Hv Hi. rewrite Hv. simpl. unfold Lint._run_icarus. rewrite Hi. reflexivity.
Qed.

Lemma lint_run_fallback_witness :
  Lint.run {| Lint.timeout := 30 |} (fun _ => Lint.NotFound) (fun _ => Lint.NotFound)
    ["/code/rtl/top.sv"%string] =
  (false, T "No suitable lint tool available (tried Verilator and Icarus)").
Proof.
  apply lint_run_fallback; [discriminate|reflexivity|reflexivity].
Defined.

(** X15: CocoTB before lint.  When the CocoTB runner returns any text its
    verdict is the result and the lint tools play no part; when it returns
    none, even with a pass, the lint checks decide, and without RTL files
    they fail. *)
Theorem test_runner_prefers_cocotb (self : Runner.TestRunner) (env : Runner.toolchain) :
  (snd (Runner.cocotb env) <> [] -> Runner.run self env = Runner.cocotb env) /\
  (snd (Runner.cocotb env) = [] ->
   Runner.run self env = Runner._run_lint_checks self env /\
   (Runner._find_rtl_files env = [] ->
    Runner.run self env = (false, T "No RTL files found"))).
Proof.
  unfold Runner.run. destruct (Runner.cocotb env) as [ok errors]. simpl. split.
  - intros H. destruct errors; [congruence|reflexivity].
  - intros ->. simpl. split; [reflexivity|].
    intros H. unfold Runner._run_lint_checks. rewrite H. reflexivity.
Qed.

Lemma test_runner_prefers_cocotb_witness :
  Runner.run (Runner.new 120 30)
    {| Runner.cocotb := (true, []);
       Runner.rtl_dir := None;
       Runner.verilator := fun _ => Lint.NotFound;
       Runner.icarus := fun _ => Lint.NotFound |} =
  (false, T "No RTL files found").
Proof.
  apply test_runner_prefers_cocotb; reflexivity.
Defined.

(** ** Specialist agents *)

Lemma is_empty_false (s : option string) :
  is_empty s = false <-> exists x, s = Some x /\ x <> ""%string.
Proof.
  destruct s as [x|]; simpl.
  - destruct (String.eqb_spec x ""); split; try congruence.
    + intros (y & [= <-] & H). contradiction.
    + intros _. eauto.
  - split; [discriminate|intros (x & H & _); discriminate].
Qed.

(** X16: the validator's verdict.  [validate] reports tier 0, 1 or 2; the
    code is valid exactly at tier 2, which is exactly when no issue is
    listed; tier 1 and up means there is code and its structure check
    passes; the port analysis is returned exactly from tier 1 up, and at
    tier 2 it says that all ports are used. *)
Theorem validate_verdict (port_analyzer : text -> PortAnalysis) (state : VerilogState) :
  let result := Specialists.validate port_analyzer state in
  let code := T (default ""%string (current_code state)) in
  exists tier,
    v_tier_achieved result = Some tier /\
    (tier = 0 \/ tier = 1 \/ tier = 2) /\
    v_valid result = Some (tier >=? 2) /\
    (v_issues result = Some [] <-> tier = 2) /\
    (1 <= tier <->
     is_empty (current_code state) = false /\
     Parser.validate_basic_structure code = true) /\
    (v_port_analysis result = if tier >=? 1 then Some (port_analyzer code) else None) /\
    (tier = 2 -> all_ports_used (port_analyzer code) = true).
Proof.
  cbv zeta. unfold Specialists.validate.
  destruct (is_empty (current_code state)) eqn:Ecode.
  - exists 0. simpl. repeat split; try tauto; try lia; try discriminate;
      try (intros [[=] _]).
  - destruct (Parser.validate_basic_structure _) eqn:Es; simpl.
    + destruct (all_ports_used (port_analyzer _)) eqn:Ep; simpl.
      * exists 2. repeat split; try tauto; try lia; try exact Ep.
      * exists 1. repeat split; try tauto; try lia; try discriminate.
    + exists 0. repeat split; try tauto; try lia; try discriminate;
        try (intros [_ [=]]).
Qed.

(** X17: the tester's verdict.  [test] reports tier 0, 1 or 3: tier 0
    exactly when there is no code, in which case no tool is run, and tier 3
    exactly when the test run passes. *)
Theorem test_verdict (written : string -> string -> Runner.toolchain)
    (state : VerilogState) :
  let result := Specialists.test written state in
  exists passed tier,
    t_passed result = Some passed /\
    t_tier_achieved result = Some tier /\
    (tier = 0 \/ tier = 1 \/ tier = 3) /\
    (tier = 3 <-> passed = true) /\
    (tier = 0 <-> is_empty (current_code state) = true) /\
    (is_empty (current_code state) = true ->
     forall written', Specialists.test written' state = result) /\
    (is_empty (current_code state) = false ->
     passed = fst (Runner.run (Runner.new 120 30)
                     (written (target_file state)
                        (default ""%string (current_code state))))).
Proof.
  cbv zeta. unfold Specialists.test.
  destruct (is_empty (current_code state)) eqn:Ecode.
  - exists false, 0. repeat split; try tauto; try lia; try discriminate.
  - destruct (Runner.run _ _) as [[|] errors]; simpl.
    + exists true, 3. repeat split; try tauto; try lia; try discriminate.
    + exists false, 1. repeat split; try tauto; try lia; try discriminate.
Qed.

Lemma categorize_errors_closed (errors : text) :
  In (Runner.categorize_errors errors) categories.
Proof.
  unfold Runner.categorize_errors. cbv zeta.
  repeat match goal with |- context [if ?b then _ else _] => destruct b end;
    unfold categories; simpl; tauto.
Qed.

(** X18: the analyzer's report.  With no error text [analyze] reports the
    category "none", no suggestion and low priority.  Otherwise the
    category is the categorizer's, one of the closed set; the list of
    suggestions is never empty, and is the default one for "timing", which
    has no entry of its own; the priority is high exactly for "syntax" and
    "undeclared", and medium otherwise. *)
Theorem analyze_report (state : VerilogState) :
  let report := Specialists.analyze state in
  (is_empty (current_errors state) = true ->
   report = {| Specialists.category := "none";
               Specialists.suggestions := [];
               Specialists.priority := "low" |}) /\
  (is_empty (current_errors state) = false ->
   Specialists.category report =
     Runner.categorize_errors (T (default ""%string (current_errors state))) /\
   In (Specialists.category report) categories /\
   Specialists.suggestions report <> [] /\
   (Specialists.category report = "timing"%string ->
    Specialists.suggestions report = ["Review errors carefully"%string]) /\
   (Specialists.priority report = "high"%string <->
    Specialists.category report = "syntax"%string \/
    Specialists.category report = "undeclared"%string) /\
   (Specialists.priority report = "high"%string \/
    Specialists.priority report = "medium"%string)).
Proof.
  cbv zeta. unfold Specialists.analyze.
  destruct (is_empty (current_errors state)); split; try discriminate; try reflexivity.
  intros _. cbv zeta. simpl.
  remember (Runner.categorize_errors (T (default ""%string (current_errors state))))
    as c eqn:Ec.
  pose proof (categorize_errors_closed (T (default ""%string (current_errors state))))
    as Hc. rewrite <- Ec in Hc. clear Ec.
  split; [reflexivity|]. split; [exact Hc|].
  unfold categories in Hc. simpl in Hc.
  destruct Hc as [<-|[<-|[<-|[<-|[<-|[<-|[<-|[]]]]]]]];
    (split; [vm_compute; discriminate|]);
    (split; [intros E; first [discriminate E | vm_compute; reflexivity]|]);
    (split; [vm_compute; split;
               [intros E; first [discriminate E | auto]
               |intros [E|E]; first [discriminate E | reflexivity]]
            |vm_compute; auto]).
Qed.

Lemma validate_tier_range (port_analyzer : text -> PortAnalysis) (state : VerilogState) :
  0 <= default 0 (v_tier_achieved (Specialists.validate port_analyzer state)) <= 2.
Proof.
  unfold Specialists.validate.
  destruct (is_empty (current_code state)); simpl; [lia|].
  destruct (Parser.validate_basic_structure _); simpl; [|lia].
  destruct (all_ports_used _); simpl; lia.
Qed.

Lemma test_tier_range (written : string -> string -> Runner.toolchain)
    (state : VerilogState) :
  0 <= default 0 (t_tier_achieved (Specialists.test written state)) <= 3.
Proof.
  unfold Specialists.test.
  destruct (is_empty (current_code state)); simpl; [lia|].
  destruct (Runner.run _ _) as [[|] errors]; simpl; lia.
Qed.

(** X19: tier 4 is out of reach.  With the validator and the tester of the
    sources, a session whose tier is between 0 and 3 keeps it there along
    any steps, and the flag of tier 4 is never written. *)
Theorem tier_four_never_reached (config : ReActConfig) (agents : Agents)
    (port_analyzer : text -> PortAnalysis)
    (written : string -> string -> Runner.toolchain)
    (n : nat) (at_ : Node * VerilogState) :
  real_specialists port_analyzer written agents ->
  tier_in_range (snd at_) ->
  tier_in_range (snd (steps config agents n at_)) /\
  tier_achievements (snd (steps config agents n at_)) !! 4 =
    tier_achievements (snd at_) !! 4.
Proof.
  intros [Hv Ht] Hrange.
  assert (Hgen : forall n at_,
            tier_in_range (snd at_) ->
            tier_in_range (snd (steps config agents n at_)) /\
            tier_achievements (snd (steps config agents n at_)) !! 4 =
              tier_achievements (snd at_) !! 4).
  { clear n at_ Hrange. induction n as [|n IH]; intros [node state] Hr; [auto|].
    assert (Hstep : tier_in_range (snd (step config agents (node, state))) /\
                    tier_achievements (snd (step config agents (node, state))) !! 4 =
                      tier_achievements state !! 4).
    { unfold tier_in_range in *. simpl in Hr.
      destruct node; simpl; try (split; [exact Hr|reflexivity]).
      - destruct (planner_node_tiers agents state) as (-> & -> & _).
        split; [exact Hr|reflexivity].
      - rewrite Hv. pose proof (validate_tier_range port_analyzer state) as Hb.
        destruct (Z.ltb_spec (current_tier state)
                    (default 0 (v_tier_achieved (Specialists.validate port_analyzer state))));
          [|split; [exact Hr|reflexivity]].
        split; [lia|]. apply lookup_insert_ne. lia.
      - rewrite Ht. pose proof (test_tier_range written state) as Hb.
        destruct (Z.ltb_spec (current_tier state)
                    (default 0 (t_tier_achieved (Specialists.test written state))));
          [|split; [exact Hr|reflexivity]].
        split; [lia|]. apply lookup_insert_ne. lia. }
    destruct Hstep as [Hr1 Hf1].
    destruct (IH (step config agents (node, state)) Hr1) as [Hr2 Hf2].
    split; [exact Hr2|]. etransitivity; [exact Hf2|exact Hf1]. }
  apply Hgen, Hrange.
Qed.

Lemma tier_four_never_reached_witness :
  tier_in_range
    (snd (steps default_config (sample_agents "validator" (true, T "1 passed")) 2
            (planner, start50))).
Proof.
  apply (tier_four_never_reached default_config
           (sample_agents "validator" (true, T "1 passed"))
           sample_port_analyzer
           (fun _ _ => sample_toolchain (true, T "1 passed")) 2 (planner, start50)).
  - split; reflexivity.
  - split; vm_compute; discriminate.
Defined.

(** X20: a passing test ends the session.  With the tester of the sources,
    whatever [exit_on_tier3] says: once a test run passes on a state whose
    tier is at most 3 and flagged, [success] and the flag of tier 3 are
    set, and the next planner step stops and leads to [END]. *)
Theorem passing_test_ends_session (config : ReActConfig) (agents : Agents)
    (written : string -> string -> Runner.toolchain) (state : VerilogState) :
  (forall s, test agents s = Specialists.test written s) ->
  is_empty (current_code state) = false ->
  fst (Runner.run (Runner.new 120 30)
         (written (target_file state) (default ""%string (current_code state)))) = true ->
  current_tier state <= 3 ->
  tier_flagged state ->
  let state' := tester_node config agents state in
  success state' = true /\
  tier_achievements state' !! 3 = Some true /\
  current_tier state' = 3 /\
  fst (should_stop {| total_budget := max_invocations state' |} state') = true /\
  fst (step config agents (planner, state')) = END.
Proof.
  intros Ht Hcode Hpass Hle Hflag.
  assert (Hres : t_passed (test agents state) = Some true /\
                 t_tier_achieved (test agents state) = Some 3).
  { rewrite Ht. unfold Specialists.test. rewrite Hcode.
    destruct (Runner.run _ _) as [ok errors]. simpl in Hpass. subst ok.
    split; reflexivity. }
  destruct Hres as [Hp H3].
  assert (Hstate : success (tester_node config agents state) = true /\
                   tier_achievements (tester_node config agents state) !! 3 = Some true /\
                   current_tier (tester_node config agents state) = 3).
  { unfold tester_node. simpl. rewrite Hp, H3. simpl.
    destruct (Z.ltb_spec (current_tier state) 3) as [Hlt|Hge].
    - repeat split. apply lookup_insert_eq.
    - assert (E : current_tier state = 3) by lia.
      destruct Hflag as [Hz|Hf]; [lia|]. rewrite E in Hf. repeat split; assumption. }
  destruct Hstate as (Hs & Hf & Hc). cbv zeta.
  assert (Hstop : fst (should_stop
                         {| total_budget := max_invocations (tester_node config agents state) |}
                         (tester_node config agents state)) = true).
  { unfold should_stop. rewrite Hs. unfold get_flag. rewrite Hf. simpl.
    destruct (_ >=? _); reflexivity. }
  repeat split; try assumption.
  simpl. apply planner_node_stop, Hstop.
Qed.

Lemma passing_test_ends_session_witness :
  let agents := sample_agents "tester" (true, T "1 passed") in
  let state := code_gen_node agents start50 in
  fst (step {| max_agent_invocations := 50; max_code_refinements := 10;
               max_consecutive_failures := 5; max_time_seconds := 900;
               tier1_compile := 10; tier2_complete := 25; tier3_tested := 40;
               tier4_optimal := 50; exit_on_tier3 := false;
               exit_on_first_success := false; allow_partial_success := true |}
         agents
         (planner,
          tester_node {| max_agent_invocations := 50; max_code_refinements := 10;
               max_consecutive_failures := 5; max_time_seconds := 900;
               tier1_compile := 10; tier2_complete := 25; tier3_tested := 40;
               tier4_optimal := 50; exit_on_tier3 := false;
               exit_on_first_success := false; allow_partial_success := true |}
            agents state)) = END.
Proof.
  intros agents state.
  apply (passing_test_ends_session _ agents
           (fun _ _ => sample_toolchain (true, T "1 passed")) state).
  - reflexivity.
  - vm_compute. reflexivity.
  - vm_compute. reflexivity.
  - vm_compute. discriminate.
  - left. vm_compute. reflexivity.
Defined.

(** ** Planner and generator agents *)

(** X21: a decision always names an action.  Whatever the executor does and
    whatever the decoder returns or raises, the dict that
    [decide_next_action] returns has a ["next_action"] entry, so the
    planner node's default for a missing entry is never used with this
    planner. *)
Theorem decision_has_action (json_loads : text -> Planner.decoding)
    (outcome : Planner.invocation) :
  exists action,
    Planner.decide_next_action json_loads outcome !! "next_action"%string = Some action /\
    default (JStr "complete")
      (Planner.decide_next_action json_loads outcome !! "next_action"%string) = action.
Proof.
  unfold Planner.decide_next_action.
  destruct outcome as [e|out].
  - exists (JStr "complete"). split; reflexivity.
  - destruct (Planner.parse_json_output json_loads (default [] out)) as [e|[d|]];
      [exists (JStr "complete"); split; reflexivity|
      |exists (JStr "code_gen"); split; reflexivity].
    unfold Planner.has_key.
    destruct (d !! "next_action"%string) as [v|] eqn:E.
    + destruct (Planner.nonempty d).
      * exists v. simpl. rewrite E. split; reflexivity.
      * exists (JStr "code_gen"). split; reflexivity.
    + rewrite andb_false_r. exists (JStr "code_gen"). split; reflexivity.
Qed.

Lemma planner_node_continue (agents : Agents) (state : VerilogState) :
  should_stop {| total_budget := max_invocations state |} state =
    (false, "Continue"%string) ->
  completed state = false.
Proof.
  unfold should_stop.
  repeat match goal with |- context [if ?b then _ else _] => destruct b eqn:? end;
    congruence.
Qed.

(** X22: how a failing planner is routed.  While the stop test does not
    fire, with the planner agent of the sources: when the policy raises, or
    returns an output with a brace pair on which [json.loads] raises
    anything but [JSONDecodeError], the next action is "complete", the
    step costs one invocation and ends the session, without setting
    [completed].  When the output has no brace pair, or [json.loads]
    rejects the text between the braces with [JSONDecodeError], or the
    decoded object has no ["next_action"], the next action is "code_gen",
    which is dispatched if an invocation is left after the planner's
    own. *)
Theorem planner_failure_routing (config : ReActConfig) (agents : Agents)
    (json_loads : text -> Planner.decoding)
    (executor : VerilogState -> Planner.invocation) (state : VerilogState) :
  real_planner json_loads executor agents ->
  should_stop {| total_budget := max_invocations state |} state =
    (false, "Continue"%string) ->
  let state' := planner_node agents state in
  (forall e,
     executor state = Planner.Raised e \/
     (exists out, executor state = Planner.Returned out /\
        occurs (T "{") (default [] out) /\ occurs (T "}") (default [] out) /\
        json_loads (brace_span (default [] out)) = Planner.OtherError e) ->
     next_action state' = JStr "complete" /\
     fst (step config agents (planner, state)) = END /\
     agent_invocations state' = agent_invocations state + 1 /\
     completed state' = false) /\
  (forall out, executor state = Planner.Returned out ->
     (~ occurs (T "{") (default [] out) \/ ~ occurs (T "}") (default [] out) \/
      json_loads (brace_span (default [] out)) = Planner.JSONDecodeError \/
      exists d, json_loads (brace_span (default [] out)) = Planner.Object d /\
                d !! "next_action"%string = None) ->
     next_action state' = JStr "code_gen" /\
     fst (step config agents (planner, state)) =
       if agent_invocations state + 1 >=? max_invocations state then END else code_gen).
Proof.
  intros Hreal Hcont state'.
  pose proof (planner_node_continue agents state Hcont) as Hcompl.
  destruct (planner_node_cases agents state)
    as [[Hs _]|(_ & Hinv & _ & _ & Hmax & Hc & Hnext)];
    [rewrite Hcont in Hs; discriminate|].
  fold state' in Hinv, Hmax, Hc, Hnext.
  rewrite Hreal in Hnext. unfold Planner.planner_agent in Hnext.
  split.
  - intros e He.
    assert (Hdec : Planner.decide_next_action json_loads (executor state) =
                   Planner.error_decision e).
    { destruct He as [He|(out & He & H1 & H2 & H3)]; rewrite He; [reflexivity|].
      unfold Planner.decide_next_action. cbv zeta.
      rewrite (proj2 (parse_json_output_escapes json_loads (default [] out) e)) by auto.
      reflexivity. }
    rewrite Hdec in Hnext.
    change (default (JStr "complete") (Planner.error_decision e !! "next_action"%string))
      with (JStr "complete") in Hnext.
    split; [exact Hnext|]. repeat split; [|exact Hinv|congruence].
    simpl. fold state'. unfold route_from_planner. rewrite Hnext. simpl.
    rewrite orb_true_r. reflexivity.
  - intros out Hout Hbad. rewrite Hout in Hnext.
    rewrite (proj1 (proj1 (decide_next_action_fallback json_loads) out Hbad)) in Hnext.
    change (default (JStr "complete") (Planner.default_decision !! "next_action"%string))
      with (JStr "code_gen") in Hnext.
    split; [exact Hnext|].
    simpl. fold state'. unfold route_from_planner.
    rewrite Hnext, Hc, Hcompl, Hinv, Hmax. simpl.
    destruct (_ >=? _); reflexivity.
Qed.

Lemma planner_failure_routing_witness :
  let agents :=
    {| decide_next_action :=
         Planner.planner_agent sample_json_loads
           (fun _ => Planner.Returned (Some oversized_output));
       generate_code := generate_code failing_agents;
       validate := validate failing_agents;
       test := test failing_agents;
       analyze := analyze failing_agents |} in
  next_action (planner_node agents start50) = JStr "complete" /\
  fst (step default_config agents (planner, start50)) = END /\
  agent_invocations (planner_node agents start50) = agent_invocations start50 + 1 /\
  completed (planner_node agents start50) = false.
Proof.
  intros agents.
  apply (planner_failure_routing default_config agents sample_json_loads
           (fun _ => Planner.Returned (Some oversized_output)) start50)
    with (e := int_limit_message).
  - intros s. reflexivity.
  - vm_compute. reflexivity.
  - right. exists (Some oversized_output). split; [reflexivity|].
    split; [apply contains_occurs; vm_compute; reflexivity|].
    split; [apply contains_occurs; vm_compute; reflexivity|].
    vm_compute. reflexivity.
Defined.

Lemma generate_report (json_loads : text -> Planner.decoding)
    (outcome : Planner.invocation) :
  match CodeGen.generate json_loads outcome with
  | CodeGen.Built r =>
      g_success r = Some (negb (String.eqb (g_code r) "")) /\
      ((g_method r = "error"%string /\ g_code r = ""%string) \/
       (exists out, outcome = Planner.Returned out /\
          g_code r = string_of_list_ascii (Parser.extract_verilog (default [] out)) /\
          g_method r =
            if nonblank (Parser.extract_verilog (default [] out))
            then "fallback_extraction"%string else "failed"%string))
  | CodeGen.Decoded d =>
      (exists v, d !! "code"%string = Some v /\ CodeGen.has_len v = true) /\
      exists out, outcome = Planner.Returned out /\
        Planner.parse_json_output json_loads (default [] out) = Planner.Parsed (Some d)
  end.
Proof.
  assert (Hfb : forall output,
            match CodeGen.fallback output with
            | CodeGen.Built r =>
                g_success r = Some (negb (String.eqb (g_code r) "")) /\
                g_code r = string_of_list_ascii (Parser.extract_verilog output) /\
                g_method r =
                  if nonblank (Parser.extract_verilog output)
                  then "fallback_extraction"%string else "failed"%string
            | CodeGen.Decoded _ => False
            end).
  { intros output. unfold CodeGen.fallback.
    destruct (Parser.extract_verilog output) as [|c rest]; simpl;
      repeat split; reflexivity. }
  assert (Hdone : forall out (P : gmap string jvalue -> Prop),
            match CodeGen.fallback (default [] out) with
            | CodeGen.Built r =>
                g_success r = Some (negb (String.eqb (g_code r) "")) /\
                ((g_method r = "error"%string /\ g_code r = ""%string) \/
                 (exists out', Planner.Returned out = Planner.Returned out' /\
                    g_code r =
                      string_of_list_ascii (Parser.extract_verilog (default [] out')) /\
                    g_method r =
                      if nonblank (Parser.extract_verilog (default [] out'))
                      then "fallback_extraction"%string else "failed"%string))
            | CodeGen.Decoded d => P d
            end).
  { intros out P. specialize (Hfb (default [] out)).
    destruct (CodeGen.fallback (default [] out)) as [|r]; [contradiction|].
    destruct Hfb as (H1 & H2 & H3). split; [exact H1|]. right. exists out. auto. }
  assert (Hfail : forall out (P : gmap string jvalue -> Prop),
            match CodeGen.failure with
            | CodeGen.Built r =>
                g_success r = Some (negb (String.eqb (g_code r) "")) /\
                ((g_method r = "error"%string /\ g_code r = ""%string) \/
                 (exists out', Planner.Returned out = Planner.Returned out' /\
                    g_code r =
                      string_of_list_ascii (Parser.extract_verilog (default [] out')) /\
                    g_method r =
                      if nonblank (Parser.extract_verilog (default [] out'))
                      then "fallback_extraction"%string else "failed"%string))
            | CodeGen.Decoded d => P d
            end).
  { intros out P. simpl. split; [reflexivity|]. left. split; reflexivity. }
  unfold CodeGen.generate. destruct outcome as [e|out].
  - simpl. split; [reflexivity|]. left. split; reflexivity.
  - cbv zeta.
    destruct (Planner.parse_json_output json_loads (default [] out)) as [e|[d|]] eqn:Ep;
      [apply Hfail| |apply Hdone].
    unfold Planner.has_key. destruct (d !! "code"%string) as [v|] eqn:Ec.
    + destruct (Planner.nonempty d); [|apply Hdone]. simpl.
      destruct (CodeGen.has_len v) eqn:Ev; [|apply Hfail].
      split; [exists v; auto|]. exists out. auto.
    + rewrite andb_false_r. apply Hdone.
Qed.

(** X23: what the generator does.  [generate_code] lets an exception out
    exactly when the state holds code and its port analysis is [None]: the
    summary logged before the [try] reads the analysis of a refinement
    without a test for [None].  That is the state right after a first
    successful generation, so generating again before a port analysis is
    stored raises.  Otherwise it returns a dict.  A dict that the agent
    builds itself reports success exactly when it carries code: in the
    [except] branch it is a failure without code, marked "error"; on the
    fallback path it carries what the extractor finds in the output,
    marked "fallback_extraction" when that is not empty and "failed"
    otherwise.  A dict taken from the model's JSON is the decoded object
    and has a ["code"] entry with a length; a ["code"] entry that is null,
    a boolean or a number never gets through. *)
Theorem generate_code_report (json_loads : text -> Planner.decoding)
    (executor : VerilogState -> Planner.invocation) (state : VerilogState) :
  ((exists e, CodeGen.generate_code json_loads executor state = CodeGen.Propagates e) <->
   is_empty (current_code state) = false /\ port_analysis state = None) /\
  (forall agents task context target cap now,
     truthy (g_success (generate_code agents
                          (create_initial_state task context target cap now))) = true ->
     g_code (generate_code agents
               (create_initial_state task context target cap now)) <> ""%string ->
     exists e,
       CodeGen.generate_code json_loads executor
         (code_gen_node agents (create_initial_state task context target cap now)) =
       CodeGen.Propagates e) /\
  (forall g, CodeGen.generate_code json_loads executor state = CodeGen.Returns g ->
     match g with
     | CodeGen.Built r =>
         g_success r = Some (negb (String.eqb (g_code r) "")) /\
         ((g_method r = "error"%string /\ g_code r = ""%string) \/
          (exists out, executor state = Planner.Returned out /\
             g_code r = string_of_list_ascii (Parser.extract_verilog (default [] out)) /\
             g_method r =
               if nonblank (Parser.extract_verilog (default [] out))
               then "fallback_extraction"%string else "failed"%string))
     | CodeGen.Decoded d =>
         (exists v, d !! "code"%string = Some v /\ CodeGen.has_len v = true) /\
         exists out, executor state = Planner.Returned out /\
           Planner.parse_json_output json_loads (default [] out) =
             Planner.Parsed (Some d)
     end).
Proof.
  assert (Hraise : forall st,
            is_empty (current_code st) = false -> port_analysis st = None ->
            exists e, CodeGen.generate_code json_loads executor st = CodeGen.Propagates e).
  { intros st Hc Hp. unfold CodeGen.generate_code, CodeGen.log_state_summary.
    cbv zeta. rewrite Hc, Hp. simpl. eauto. }
  split; [|split].
  - split; [|intros [Hc Hp]; apply Hraise; assumption].
    unfold CodeGen.generate_code, CodeGen.log_state_summary. cbv zeta.
    destruct (is_empty (current_code state)); simpl.
    + intros [e He]. discriminate He.
    + destruct (port_analysis state); [intros [e He]; discriminate He|auto].
  - intros agents task context target cap now Hok Hcode. apply Hraise.
    + unfold code_gen_node. cbv zeta. simpl. rewrite Hok. simpl.
      apply String.eqb_neq. exact Hcode.
    + reflexivity.
  - intros g. unfold CodeGen.generate_code.
    destruct (CodeGen.log_state_summary state); [discriminate|].
    intros [= <-]. apply generate_report.
Qed.

(** ** Response parser: structure check and extraction strategies *)

Lemma occurs_endmodule_module (s : text) :
  occurs (T "endmodule") s -> occurs (T "module") s.
Proof.
  intros (a & b & ->). exists (a ++ T "end"), b.
  rewrite <- !app_assoc. reflexivity.
Qed.

(** X24: the structure check.  [validate_basic_structure] accepts a text
    exactly when "endmodule" occurs in it, in any letter case, and it has
    as many opening as closing parentheses; the test for "module" adds
    nothing, and neither order nor nesting of the parentheses is looked
    at. *)
Theorem validate_basic_structure_iff (code : text) :
  validate_basic_structure code = true <->
  occurs (T "endmodule") (lower code) /\ count "(" code = count ")" code.
Proof.
  unfold validate_basic_structure.
  destruct (contains (T "endmodule") (lower code)) eqn:Ee.
  - apply contains_occurs in Ee as He.
    pose proof (occurs_endmodule_module _ He) as Hm.
    apply contains_occurs in Hm. rewrite Hm. simpl.
    destruct code as [|c code].
    + destruct He as (a & b & H). destruct a; discriminate.
    + destruct (Z.eqb_spec (count "(" (c :: code)) (count ")" (c :: code)));
        simpl; split; try tauto; try discriminate; try (intros [_ H]; contradiction).
  - apply contains_false in Ee.
    split; [|tauto].
    destruct code; [discriminate|].
    destruct (contains (T "module") _); simpl; discriminate.
Qed.

Lemma lstrip_stops (s : text) : stops is_space (lstrip s).
Proof.
  induction s as [|c s IH]; simpl; [exact I|].
  destruct (is_space c) eqn:E; [exact IH|exact E].
Qed.

Lemma lstrip_snoc (y : text) (a : ascii) :
  is_space a = false -> exists v, lstrip (y ++ [a]) = v ++ [a].
Proof.
  intros Ha. induction y as [|c y [v IH]]; simpl.
  - rewrite Ha. exists []. reflexivity.
  - destruct (is_space c); [exists v; exact IH|exists (c :: y); reflexivity].
Qed.

Lemma strip_trimmed (s : text) : trimmed (strip s).
Proof.
  unfold trimmed, strip, rstrip. rewrite rev_involutive.
  split; [|apply lstrip_stops].
  pose proof (lstrip_stops s) as Hs.
  destruct (lstrip s) as [|a u]; [exact I|]. simpl in Hs.
  change (rev (a :: u)) with (rev u ++ [a]).
  destruct (lstrip_snoc (rev u) a Hs) as [v ->].
  rewrite rev_app_distr. simpl. exact Hs.
Qed.

Lemma trimmed_strip (s : text) : trimmed s -> strip s = s.
Proof.
  intros [H1 H2]. unfold strip, rstrip.
  assert (E1 : lstrip s = s) by (destruct s; simpl in *; [reflexivity|rewrite H1; reflexivity]).
  rewrite E1.
  assert (E2 : lstrip (rev s) = rev s)
    by (destruct (rev s); simpl in *; [reflexivity|rewrite H2; reflexivity]).
  rewrite E2. apply rev_involutive.
Qed.

(** X25: extracted code is trimmed.  Whatever the response and whichever
    strategy applies, the text that [extract_verilog] returns has no
    whitespace at either end, so stripping it again changes nothing. *)
Theorem extract_verilog_trimmed (response : text) :
  trimmed (extract_verilog response) /\
  strip (extract_verilog response) = extract_verilog response.
Proof.
  assert (H : trimmed (extract_verilog response)).
  { unfold extract_verilog. destruct response as [|c response]; [split; exact I|].
    destruct (first_match _ _); [apply strip_trimmed|].
    destruct (contains _ _); [|apply strip_trimmed].
    destruct (search _ _); apply strip_trimmed. }
  split; [exact H|apply trimmed_strip, H].
Qed.

Lemma lazy_inv {A} (p : ascii -> bool) (s : text) (k : text -> option A) (a : A) :
  lazy p s k = Some a -> exists x rest, s = x ++ rest /\ k rest = Some a.
Proof.
  induction s as [|c s IH]; simpl.
  - destruct (k []) eqn:E; [|discriminate]. intros [= <-]. exists [], []. auto.
  - destruct (k (c :: s)) eqn:E.
    + intros [= <-]. exists [], (c :: s). auto.
    + destruct (p c); [|discriminate]. intros H.
      destruct (IH H) as (x & rest & -> & Hk). exists (c :: x), rest. auto.
Qed.

Lemma match_at_module_endmodule (s g : text) :
  match_at module_block s = Some g -> occurs (T "endmodule") (lower s).
Proof.
  rewrite match_at_module_block, literal_lit_seq. intros H.
  apply run_lit_seq_inv in H as (kw & s1 & -> & _ & H).
  destruct s1 as [|c s1]; [discriminate|]. rewrite run_plus in H.
  destruct (is_space c); [|discriminate].
  apply greedy_inv in H as (ws & s2 & -> & _ & H).
  destruct s2 as [|d s2]; [discriminate|]. rewrite run_plus in H.
  destruct (is_word d); [|discriminate].
  apply greedy_inv in H as (name & s3 & -> & _ & H).
  rewrite module_tail_lazy in H.
  apply lazy_inv in H as (mid & s4 & -> & H).
  apply run_lit_seq_inv in H as (em & s5 & -> & Hem & _).
  exists (lower (kw ++ c :: ws ++ d :: name ++ mid)), (lower s5).
  change (lower (T "endmodule")) with (T "endmodule") in Hem. rewrite <- Hem.
  rewrite <- !lower_app. f_equal.
  rewrite <- !app_assoc. simpl. rewrite <- !app_assoc. simpl.
  rewrite <- !app_assoc. reflexivity.
Qed.

Lemma search_module_endmodule (s g : text) :
  search module_block s = Some g -> occurs (T "endmodule") (lower s).
Proof.
  induction s as [|c s IH]; simpl.
  - destruct (match_at module_block []) eqn:E; [|discriminate].
    intros _. apply (match_at_module_endmodule _ _ E).
  - destruct (match_at module_block (c :: s)) eqn:E.
    + intros _. apply (match_at_module_endmodule _ _ E).
    + intros H. destruct (IH H) as (a & b & Hab).
      exists (lower_char c :: a), b. simpl. rewrite Hab. reflexivity.
Qed.

(** X26: the raw strategy.  A response without a backquote in which
    "module " or "endmodule" does not occur, in any letter case, is
    returned as it is, stripped: so a module cut off before its
    [endmodule] is passed on whole. *)
Theorem extract_verilog_raw (response : text) :
  ~ In "`"%char response ->
  ~ occurs (T "module ") (lower response) \/ ~ occurs (T "endmodule") (lower response) ->
  extract_verilog response = strip response.
Proof.
  intros Hq Hno. unfold extract_verilog.
  destruct response as [|c response]; [reflexivity|].
  rewrite first_match_no_backquote by exact Hq.
  destruct (contains (T "module ") (lower (c :: response))) eqn:Ec; [|reflexivity].
  destruct (search module_block (c :: response)) as [g|] eqn:Es; [|reflexivity].
  exfalso. destruct Hno as [H|H].
  - apply H, contains_occurs, Ec.
  - apply H, (search_module_endmodule _ _ Es).
Qed.

Lemma extract_verilog_raw_witness :
  extract_verilog (T "  module top(input a, output b); assign b = a;  ") =
  T "module top(input a, output b); assign b = a;".
Proof.
  apply (extract_verilog_raw (T "  module top(input a, output b); assign b = a;  ")).
  - vm_compute. intuition discriminate.
  - right. apply contains_false. vm_compute. reflexivity.
Defined.

Lemma greedy_stop {A} (p : ascii -> bool) (rest : text) (k : text -> option A) :
  stops p rest -> greedy p rest k = k rest.
Proof.
  destruct rest as [|c rest]; simpl; [reflexivity|]. intros ->. reflexivity.
Qed.

(** A greedy star over a maximal run whose continuation only accepts with
    the last character given back gives back exactly that one. *)
Lemma greedy_back_one {A} (p : ascii -> bool) (x : text) (c : ascii) (rest : text)
    (k : text -> option A) (a : A) :
  forallb p x = true -> p c = true -> stops p rest ->
  k rest = None -> k (c :: rest) = Some a ->
  greedy p (x ++ c :: rest) k = Some a.
Proof.
  intros Hx Hc Hstop Hnone Hsome. induction x as [|y x IH]; simpl in *.
  - rewrite Hc, (greedy_stop p rest k Hstop), Hnone. exact Hsome.
  - apply andb_prop in Hx as [Hy Hx]. rewrite Hy, (IH Hx). reflexivity.
Qed.

Lemma lower_backquote (c : ascii) : lower_char c = "`"%char -> c = "`"%char.
Proof.
  destruct c as [[] [] [] [] [] [] [] []]; vm_compute; congruence.
Qed.

Lemma nonspace_not_newline (c : ascii) :
  is_space c = false -> Ascii.eqb (lower_char c) (lower_char Parser.newline) = false.
Proof.
  destruct c as [[] [] [] [] [] [] [] []]; vm_compute; congruence.
Qed.

Lemma match_at_fence_tagged (s : text) :
  match_at fence_tagged s =
  run (lit_seq (T "```")) s (fun s0 =>
  run (Alt (lit_seq (T "verilog")) (Alt (lit_seq (T "systemverilog")) (lit_seq (T "sv"))))
    s0 (fun s0' =>
  greedy is_space s0' (fun s0'' =>
  run (Lit Parser.newline) s0'' (fun s1 =>
  lazy dot s1 (fun s2 =>
  run (lit_seq (Parser.newline :: T "```")) s2 (fun _ =>
    Some (take (length s1 - length s2)%nat s1))))))).
Proof. reflexivity. Qed.

Lemma match_at_fence_tagged_head (c : ascii) (s : text) :
  c <> "`"%char -> match_at fence_tagged (c :: s) = None.
Proof.
  intros Hc. rewrite match_at_fence_tagged. apply run_lit_seq_fail.
  change (starts_with (lower (T "```")) (lower (c :: s)))
    with (Ascii.eqb "`"%char (lower_char c) && starts_with (T "``") (lower s)).
  destruct (Ascii.eqb_spec "`"%char (lower_char c)) as [E|E]; [|reflexivity].
  exfalso. apply Hc. apply lower_backquote. symmetry. exact E.
Qed.

Lemma run_alt {A} (r1 r2 : regex) (s : text) (k : text -> option A) :
  run (Alt r1 r2) s k =
  match run r1 s k with
  | Some a => Some a
  | None => run r2 s k
  end.
Proof. reflexivity. Qed.

Lemma run_tag {A} (tag rest : text) (k : text -> option A) (a : A) :
  In (lower tag) [T "verilog"; T "systemverilog"; T "sv"] ->
  k rest = Some a ->
  run (Alt (lit_seq (T "verilog")) (Alt (lit_seq (T "systemverilog")) (lit_seq (T "sv"))))
    (tag ++ rest) k = Some a.
Proof.
  intros [E|[E|[E|[]]]] Hk; symmetry in E.
  - rewrite run_alt, run_lit_seq_app by exact E. rewrite Hk. reflexivity.
  - rewrite run_alt, (run_lit_seq_fail (T "verilog"))
      by (rewrite lower_app, E; reflexivity).
    rewrite run_alt, run_lit_seq_app by exact E. rewrite Hk. reflexivity.
  - rewrite run_alt, (run_lit_seq_fail (T "verilog"))
      by (rewrite lower_app, E; reflexivity).
    rewrite run_alt, (run_lit_seq_fail (T "systemverilog"))
      by (rewrite lower_app, E; reflexivity).
    rewrite run_lit_seq_app by exact E. exact Hk.
Qed.

Lemma extract_verilog_first_match (response code : text) :
  first_match markdown_patterns response = Some code ->
  extract_verilog response = strip code.
Proof.
  intros H. unfold extract_verilog.
  destruct response as [|c response]; [vm_compute in H; discriminate|].
  rewrite H. reflexivity.
Qed.

(** X27: the fenced strategy.  Let a response open, after text without a
    backquote, a fence tagged verilog, systemverilog or sv in any letter
    case, go on with whitespace to the end of a line, then a body that
    starts with a visible character, then the first closing fence.  Then
    [extract_verilog] returns that body, stripped, whatever surrounds the
    fence. *)
Theorem extract_verilog_fenced (pre tag ws body post : text) :
  let fence_end := [Parser.newline] ++ T "```" in
  let response := pre ++ T "```" ++ tag ++ ws ++ [Parser.newline] ++ body ++ fence_end ++ post in
  ~ In "`"%char pre ->
  In (lower tag) [T "verilog"; T "systemverilog"; T "sv"] ->
  forallb is_space ws = true ->
  body <> [] -> stops is_space body ->
  first_index fence_close_at (body ++ fence_end ++ post) = Some (length body) ->
  extract_verilog response = strip body.
Proof.
  intros fence_end response Hpre Htag Hws Hbody Hstop Hclose.
  assert (Hmatch : match_at fence_tagged
                     (T "```" ++ tag ++ ws ++ [Parser.newline] ++ body ++ fence_end ++ post)
                   = Some body).
  { rewrite match_at_fence_tagged, run_lit_seq_app by reflexivity.
    apply run_tag; [exact Htag|].
    destruct body as [|b0 body]; [congruence|]. simpl in Hstop.
    apply (greedy_back_one is_space ws Parser.newline); [exact Hws|reflexivity|exact Hstop| |].
    - simpl. rewrite (nonspace_not_newline b0 Hstop). reflexivity.
    - change (run (Lit Parser.newline) (Parser.newline :: (b0 :: body) ++ fence_end ++ post) ?k)
        with (k ((b0 :: body) ++ fence_end ++ post)).
      apply first_index_spec in Hclose as [_ Hnone].
      change (fence_end ++ post) with ((Parser.newline :: T "```") ++ post).
      apply (lazy_first (b0 :: body) ((Parser.newline :: T "```") ++ post)).
      + intros i Hi. apply run_lit_seq_fail. apply (Hnone i Hi).
      + rewrite run_lit_seq_app by reflexivity. f_equal.
        rewrite length_app, Nat.add_sub. apply take_app_length. }
  assert (Hsearch : search fence_tagged response = Some body).
  { apply (search_skip fence_tagged (length pre)).
    - intros i Hi. unfold response. rewrite drop_app_le by lia.
      destruct (drop i pre) as [|c rest] eqn:Ed.
      { apply (f_equal (@length ascii)) in Ed. rewrite length_drop in Ed. simpl in Ed. lia. }
      apply match_at_fence_tagged_head. intros ->. apply Hpre.
      rewrite <- (take_drop i pre), Ed. apply in_or_app. right. left. reflexivity.
    - unfold response. rewrite drop_app_length. exact Hmatch. }
  apply extract_verilog_first_match.
  change (first_match markdown_patterns response)
    with (match search fence_tagged response with
          | Some g => Some g
          | None => first_match [fence_plain] response
          end).
  rewrite Hsearch. reflexivity.
Qed.

Lemma extract_verilog_fenced_witness :
  extract_verilog (T "Here is the module:
```Verilog
module m(); endmodule
```
Done.") = T "module m(); endmodule".
Proof.
  apply (extract_verilog_fenced (T "Here is the module:
") (T "Verilog") [] (T "module m(); endmodule") (T "
Done."));
    first [discriminate | vm_compute; intuition discriminate | vm_compute; reflexivity
          | exact I].
Defined.

Lemma search_inv (pat : pattern) (s g : text) :
  search pat s = Some g ->
  exists n, match_at pat (drop n s) = Some g /\
            forall i, (i < n)%nat -> match_at pat (drop i s) = None.
Proof.
  induction s as [|c s IH]; simpl.
  - destruct (match_at pat []) eqn:E; [|discriminate]. intros [= <-].
    exists 0%nat. split; [exact E|intros i Hi; lia].
  - destruct (match_at pat (c :: s)) eqn:E.
    + intros [= <-]. exists 0%nat. split; [exact E|intros i Hi; lia].
    + intros H. destruct (IH H) as (n & Hn & Hnone).
      exists (S n). split; [exact Hn|].
      intros [|i] Hi; [exact E|]. apply Hnone. lia.
Qed.

Lemma search_none (pat : pattern) (s : text) :
  search pat s = None <-> forall n, match_at pat (drop n s) = None.
Proof.
  split.
  - induction s as [|c s IH]; simpl.
    + destruct (match_at pat []) eqn:E; [discriminate|].
      intros _ n. rewrite drop_nil. exact E.
    + destruct (match_at pat (c :: s)) eqn:E; [discriminate|].
      intros H [|n]; [exact E|]. apply IH, H.
  - intros H. destruct (search pat s) as [g|] eqn:E; [|reflexivity].
    apply search_inv in E as (n & Hn & _). rewrite H in Hn. discriminate.
Qed.

Lemma first_index_none (P : text -> bool) (s : text) :
  first_index P s = None <-> forall n, P (drop n s) = false.
Proof.
  split.
  - induction s as [|c s IH]; simpl.
    + destruct (P []) eqn:E; [discriminate|]. intros _ n. rewrite drop_nil. exact E.
    + destruct (P (c :: s)) eqn:E; [discriminate|].
      destruct (first_index P s); [discriminate|].
      intros _ [|n]; [exact E|]. apply IH. reflexivity.
  - intros H. destruct (first_index P s) as [n|] eqn:E; [|reflexivity].
    apply first_index_spec in E as [E _]. rewrite H in E. discriminate.
Qed.

Lemma match_at_module_header_eq (s : text) :
  match_at module_header s =
  run (lit_seq (T "module")) s (fun s0 =>
  run (plus is_space) s0 (fun s1 =>
  run (plus is_word) s1 (fun s2 =>
    Some (take (length s1 - length s2)%nat s1)))).
Proof. reflexivity. Qed.

Lemma match_at_module_header_found (kw ws name rest : text) :
  lower kw = T "module" ->
  ws <> [] -> forallb is_space ws = true ->
  name <> [] -> forallb is_word name = true ->
  stops is_word rest ->
  match_at module_header (kw ++ ws ++ name ++ rest) = Some name.
Proof.
  intros Hkw Hws0 Hws Hn0 Hn Hstop.
  rewrite match_at_module_header_eq, run_lit_seq_app by exact Hkw.
  destruct ws as [|c ws]; [contradiction|].
  destruct name as [|d name]; [contradiction|].
  simpl in Hws, Hn.
  apply andb_prop in Hws as [Hc Hws]. apply andb_prop in Hn as [Hd Hn].
  rewrite <- app_comm_cons, run_plus, Hc.
  apply greedy_all; [exact Hws|simpl; apply word_not_space, Hd|].
  rewrite <- app_comm_cons, run_plus, Hd.
  apply greedy_all; [exact Hn|exact Hstop|].
  f_equal. change (d :: name ++ rest) with ((d :: name) ++ rest).
  rewrite length_app, Nat.add_sub. apply take_app_length.
Qed.

Lemma match_at_module_header_inv (s name : text) :
  match_at module_header s = Some name ->
  header_at s = true /\ name <> [] /\ forallb is_word name = true /\ occurs name s.
Proof.
  rewrite match_at_module_header_eq. intros H.
  apply run_lit_seq_inv in H as (kw & s0 & -> & Hkw & H).
  destruct s0 as [|c s0]; [discriminate|]. rewrite run_plus in H.
  destruct (is_space c) eqn:Hc; [|discriminate].
  apply greedy_inv in H as (ws & s1 & -> & Hws & H).
  destruct s1 as [|d s1]; [discriminate|]. rewrite run_plus in H.
  destruct (is_word d) eqn:Hd; [|discriminate].
  apply greedy_inv in H as (x & rest & -> & Hx & H).
  injection H as <-.
  replace (S (length (x ++ rest)) - length rest)%nat with (length (d :: x))
    by (simpl; rewrite length_app; lia).
  change (d :: x ++ rest) with ((d :: x) ++ rest).
  rewrite take_app_length.
  change (lower (T "module")) with (T "module") in Hkw.
  assert (Hlen : 6%nat = length kw) by (rewrite <- lower_length, Hkw; reflexivity).
  repeat split.
  - unfold header_at. rewrite lower_app, Hkw, starts_with_app. simpl.
    rewrite drop_app_length' by exact Hlen. rewrite Hc. simpl.
    rewrite lstrip_run; [exact Hd|exact Hws|]. simpl. apply word_not_space, Hd.
  - discriminate.
  - simpl. rewrite Hd. exact Hx.
  - exists (kw ++ c :: ws), rest. rewrite <- !app_assoc. reflexivity.
Qed.

Lemma lstrip_split (s : text) :
  exists ws, s = ws ++ lstrip s /\ forallb is_space ws = true.
Proof.
  induction s as [|c s (ws & IH & Hws)]; simpl; [exists []; auto|].
  destruct (is_space c) eqn:E.
  - exists (c :: ws). simpl. rewrite E, Hws, <- IH. auto.
  - exists []. auto.
Qed.

Lemma word_run (s : text) :
  exists x rest, s = x ++ rest /\ forallb is_word x = true /\ stops is_word rest.
Proof.
  induction s as [|c s (x & rest & IH & Hx & Hr)]; [exists [], []; simpl; auto|].
  destruct (is_word c) eqn:E.
  - exists (c :: x), rest. simpl. rewrite E, Hx, IH. auto.
  - exists [], (c :: s). simpl. auto.
Qed.

Lemma header_at_match (s : text) :
  header_at s = true -> exists name, match_at module_header s = Some name.
Proof.
  unfold header_at. intros H. apply andb_prop in H as [Hkw H].
  apply starts_with_inv in Hkw as [b Hb].
  assert (Hlen : (6 <= length s)%nat).
  { rewrite <- lower_length, Hb, length_app. simpl. lia. }
  assert (Hk : lower (take 6 s) = T "module").
  { unfold lower. rewrite <- firstn_map. fold (lower s). rewrite Hb. reflexivity. }
  rewrite <- (take_drop 6 s).
  destruct (drop 6 s) as [|c r]; [discriminate|].
  apply andb_prop in H as [Hc H].
  destruct (lstrip_split r) as (ws & Er & Hws).
  destruct (lstrip r) as [|d r'] eqn:El; [discriminate|].
  destruct (word_run r') as (x & rest & -> & Hx & Hrest).
  exists (d :: x). rewrite Er.
  change (take 6 s ++ c :: ws ++ d :: x ++ rest)
    with (take 6 s ++ (c :: ws) ++ (d :: x) ++ rest).
  apply match_at_module_header_found; try assumption; try discriminate.
  - simpl. rewrite Hc. exact Hws.
  - simpl. rewrite H. exact Hx.
Qed.

(** X28: the module name.  The name that [extract_module_name] returns is
    a non-empty run of word characters that occurs in the code; no name is
    returned exactly when the code has no module header (the keyword,
    whitespace, a word character) anywhere; and when the first header is
    followed by a whole identifier, that identifier is the name. *)
Theorem extract_module_name_identifier (code : text) :
  (forall name, extract_module_name code = Some name ->
     name <> [] /\ forallb is_word name = true /\ occurs name code) /\
  (extract_module_name code = None <-> first_index header_at code = None) /\
  (forall pre kw ws name rest,
     code = pre ++ kw ++ ws ++ name ++ rest ->
     first_index header_at code = Some (length pre) ->
     lower kw = T "module" ->
     ws <> [] -> forallb is_space ws = true ->
     name <> [] -> forallb is_word name = true ->
     stops is_word rest ->
     extract_module_name code = Some name).
Proof.
  unfold extract_module_name. split; [|split].
  - intros name H. apply search_inv in H as (n & H & _).
    apply match_at_module_header_inv in H as (_ & H1 & H2 & (a & b & H3)).
    repeat split; try assumption.
    exists (take n code ++ a), b. rewrite <- (take_drop n code) at 1.
    rewrite H3, <- !app_assoc. reflexivity.
  - rewrite search_none, first_index_none. split; intros H n.
    + destruct (header_at (drop n code)) eqn:E; [|reflexivity].
      apply header_at_match in E as [name E]. rewrite H in E. discriminate.
    + destruct (match_at module_header (drop n code)) as [name|] eqn:E; [|reflexivity].
      apply match_at_module_header_inv in E as (E & _). rewrite H in E. discriminate.
  - intros pre kw ws name rest -> Hfirst Hkw Hws0 Hws Hn0 Hn Hstop.
    apply first_index_spec in Hfirst as [_ Hnone].
    apply (search_skip module_header (length pre)).
    + intros i Hi.
      destruct (match_at module_header (drop i (pre ++ kw ++ ws ++ name ++ rest)))
        as [g|] eqn:E; [|reflexivity].
      apply match_at_module_header_inv in E as (E & _).
      rewrite (Hnone i Hi) in E. discriminate.
    + rewrite drop_app_length. apply match_at_module_header_found; assumption.
Qed.

Lemma extract_module_name_identifier_witness :
  extract_module_name (T "// counter
module counter_2bit (input clk); endmodule") = Some (T "counter_2bit").
Proof.
  apply (extract_module_name_identifier _) with
    (pre := T "// counter
") (kw := T "module") (ws := T " ") (rest := T " (input clk); endmodule");
    first [discriminate | vm_compute; reflexivity].
Defined.

(** X29: the dispatcher.  [_select_system] never answers [AUTO], so the
    "unknown system" exit of [run] is never taken; the environment variable,
    in any letter case, wins over the explicit type, and without it an
    explicit type is kept and [AUTO] means the ReAct system.  Whenever the
    ReAct system fails to start, [run] ends with what the iterative system
    gives (1 if that fails too), whichever system was selected. *)
Theorem select_system_never_auto (env : option text)
    (agent_type : Dispatcher.AgentType) :
  Dispatcher._select_system env agent_type <> Dispatcher.AUTO /\
  (forall e, lower e = T "iterative" ->
     Dispatcher._select_system (Some e) agent_type = Dispatcher.ITERATIVE) /\
  (forall e, lower e = T "react" ->
     Dispatcher._select_system (Some e) agent_type = Dispatcher.REACT) /\
  Dispatcher._select_system None agent_type =
    match agent_type with
    | Dispatcher.ITERATIVE => Dispatcher.ITERATIVE
    | _ => Dispatcher.REACT
    end /\
  (forall iterative,
     Dispatcher.run env agent_type Dispatcher.Fails iterative =
     match iterative with Dispatcher.Exits code => code | Dispatcher.Fails => 1%Z end) /\
  (forall react iterative,
     Dispatcher.run env agent_type react iterative =
     match Dispatcher._select_system env agent_type, react with
     | Dispatcher.REACT, Dispatcher.Exits code => code
     | _, _ => Dispatcher._run_iterative iterative
     end).
Proof.
  assert (Hsel : Dispatcher._select_system env agent_type <> Dispatcher.AUTO).
  { unfold Dispatcher._select_system. cbv zeta.
    destruct (Dispatcher.text_eqb _ (T "iterative")); [discriminate|].
    destruct (Dispatcher.text_eqb _ (T "react")); [discriminate|].
    destruct agent_type; discriminate. }
  split; [exact Hsel|]. split; [|split; [|split; [|split]]].
  - intros e He. unfold Dispatcher._select_system. cbv zeta.
    change (default [] (Some e)) with e. rewrite He. reflexivity.
  - intros e He. unfold Dispatcher._select_system. cbv zeta.
    change (default [] (Some e)) with e. rewrite He. reflexivity.
  - destruct agent_type; reflexivity.
  - intros iterative. unfold Dispatcher.run.
    destruct (Dispatcher._select_system env agent_type);
      [reflexivity|reflexivity|contradiction].
  - intros react iterative. unfold Dispatcher.run.
    destruct (Dispatcher._select_system env agent_type);
      [reflexivity|destruct react; reflexivity|contradiction].
Qed.
